(** * Verification of the ingestion engine of epstein_scraper

    A shallow embedding of the catalog store ([db.py]), the HTTP download
    engine ([downloader.py]), the PDF text extractor ([extractor.py]), the
    default adapter loop ([sources/base.py]) and the catalog registration of
    the snowball adapter ([sources/epsteingraph.py]), followed by the
    properties of the specification that concern them.

    Conventions of the embedding.
    - Python [str] values that are only stored, compared and concatenated
      (urls, paths, column values) are [string]s.  Page texts, whose [len] is
      observed, are lists of code points ([str]).
    - Python [None] is [None] of an [option]; an optional keyword argument
      left out is [None].
    - Exceptions are values of [exn]; a call that may raise returns a
      [result].
    - The outside world (files, the wall clock, the per-source request times
      of the downloader, the catalog) is an explicit [World] threaded through
      the calls; what the network, the disk and the external tools answer is
      given by explicit scripts. *)

From stdpp Require Import gmap strings list pretty.
From Stdlib Require Import Ascii ZArith Lia.

Open Scope Z_scope.

(** ** Exceptions and results *)

Inductive exn :=
| HTTPStatusError (msg : string)   (* httpx.HTTPStatusError *)
| TransportError (msg : string)    (* httpx.TransportError *)
| OSError (msg : string)           (* OSError and its subclasses *)
| ValueError (msg : string)
| TypeError (msg : string)
| OtherError (msg : string).       (* any other subclass of Exception *)

(** [str(e)] *)
Definition str_of_exn (e : exn) : string :=
  match e with
  | HTTPStatusError m | TransportError m | OSError m
  | ValueError m | TypeError m | OtherError m => m
  end.

Inductive result (A : Type) :=
| Ok (a : A)
| Raise (e : exn).
Arguments Ok {A} a.
Arguments Raise {A} e.

(** ** Python strings and [os.path] *)

Module Py.

(** Truth value of an optional string: [None] and [""] are falsy. *)
Definition truthy (o : option string) : bool :=
  match o with
  | Some s => negb (bool_decide (s = ""))
  | None => false
  end.

Definition lower_ascii (c : Ascii.ascii) : Ascii.ascii :=
  let n := Ascii.nat_of_ascii c in
  if ((65 <=? n) && (n <=? 90))%nat then Ascii.ascii_of_nat (n + 32) else c.

(** [s.lower()], on the ASCII letters. *)
Fixpoint lower (s : string) : string :=
  match s with
  | EmptyString => EmptyString
  | String c r => String (lower_ascii c) (lower r)
  end.

(** [s.startswith(p)] *)
Fixpoint startswith (p s : string) : bool :=
  match p, s with
  | EmptyString, _ => true
  | String a p', String b s' => bool_decide (a = b) && startswith p' s'
  | String _ _, EmptyString => false
  end.

(** [s.endswith(suffix)] *)
Definition endswith (suffix s : string) : bool :=
  startswith (String.rev suffix) (String.rev s).

(** [sub in s] *)
Fixpoint contains (sub s : string) : bool :=
  startswith sub s ||
  match s with
  | EmptyString => false
  | String _ r => contains sub r
  end.

(** [posixpath.join(a, b)] *)
Definition os_path_join (a b : string) : string :=
  if startswith "/" b then b
  else if bool_decide (a = "") || endswith "/" a then a +:+ b
  else a +:+ "/" +:+ b.

(** The part of [s] after its last occurrence of [c]; [None] when [c] does
    not occur. *)
Fixpoint after_last (c : Ascii.ascii) (s : string) : option string :=
  match s with
  | EmptyString => None
  | String a r =>
      match after_last c r with
      | Some t => Some t
      | None => if bool_decide (a = c) then Some r else None
      end
  end.

(** [posixpath.basename(p)]: [p[p.rfind('/') + 1:]] *)
Definition os_path_basename (p : string) : string :=
  default p (after_last "/"%char p).

Fixpoint all_dots (s : string) : bool :=
  match s with
  | EmptyString => true
  | String a r => bool_decide (a = "."%char) && all_dots r
  end.

(** [posixpath.splitext(p)[0]]: the extension starts at the last dot of the
    last path component, unless only dots precede it there. *)
Definition os_path_splitext_root (p : string) : string :=
  let name := os_path_basename p in
  match after_last "."%char name with
  | None => p
  | Some ext =>
      let stem_len := (String.length name - String.length ext - 1)%nat in
      if all_dots (String.substring 0 stem_len name) then p
      else String.substring 0 (String.length p - String.length ext - 1) p
  end.

End Py.

(** ** The catalog store ([db.py]) *)

(** Timestamps ([CURRENT_TIMESTAMP]) are readings of the world clock. *)
Definition timestamp := Z.

(** A row of table [documents]. *)
Module Document.
Record row := {
  id : Z;
  url : string;
  source : string;
  source_id : string;
  filename : string;
  title : string;
  metadata : string;
  local_path : option string;
  sha256 : option string;
  file_size : option Z;
  download_status : string;
  error : option string;
  created_at : timestamp;
  updated_at : timestamp
}.
End Document.

(** A row of table [text_extractions]. *)
Module Extraction.
Record row := {
  id : Z;
  document_id : Z;
  output_path : string;
  method : string;
  page_count : Z;
  char_count : Z;
  ocr_pages : Z;
  status : string;
  error : option string;
  created_at : timestamp
}.
End Extraction.

Module Db.

(** The database as seen through the one connection of the process: the
    two tables the pipeline writes, their [AUTOINCREMENT] counters (the
    largest row id ever used, kept in [sqlite_sequence]), and the
    connection's [sqlite3_last_insert_rowid()], which every successful
    [INSERT] on the connection sets, into whatever table, and which nothing
    else changes.  Table [source_state] holds the adapters' cursors and is
    not represented. *)
Record Database := {
  documents : list Document.row;
  documents_seq : Z;
  text_extractions : list Extraction.row;
  text_extractions_seq : Z;
  last_insert_rowid : Z
}.

(** [_init_db] on a new file, through a new connection. *)
Definition empty : Database :=
  {| documents := [];
     documents_seq := 0;
     text_extractions := [];
     text_extractions_seq := 0;
     last_insert_rowid := 0 |}.

(** [SELECT ... FROM documents WHERE url = ?] then [fetchone()] *)
Definition select_by_url (db : Database) (u : string) : option Document.row :=
  List.find (fun r => bool_decide (Document.url r = u)) (documents db).

Definition url_exists (db : Database) (u : string) : bool :=
  match select_by_url db u with
  | Some _ => true
  | None => false
  end.

(** The [WHERE] clause of [sha256_exists].  A [NULL] [sha256] matches no
    parameter. *)
Definition downloaded_with (h : string) (r : Document.row) : bool :=
  bool_decide (Document.sha256 r = Some h)
  && bool_decide (Document.download_status r = "downloaded").

(** [sha256_exists]: [row["local_path"] if row else None], for the first
    matching row ([LIMIT 1]).  The result is [None] both when no row
    matches and when the matching row has a [NULL] [local_path]. *)
Definition sha256_exists (db : Database) (h : string) : option string :=
  match List.find (downloaded_with h) (documents db) with
  | Some r => Document.local_path r
  | None => None
  end.

(** [json.dumps(metadata or {})]: the argument is [None] or a dict, given
    by its JSON text ([json.dumps] of the empty dict is ["{}"] too). *)
Definition meta_json (metadata : option string) : string :=
  default "{}" metadata.

(** [INSERT OR IGNORE INTO documents (url, source, source_id, filename,
    title, metadata) VALUES (...)]: a row whose url is taken violates
    [UNIQUE(url)] and the statement does nothing; otherwise the new row
    takes the next id and the defaults of the other columns. *)
Definition insert_or_ignore (db : Database) (now : timestamp)
    (u src sid fname ttl meta : string) : Database :=
  if url_exists db u then db
  else
    let rowid := documents_seq db + 1 in
    {| documents := documents db ++
         [ {| Document.id := rowid;
              Document.url := u;
              Document.source := src;
              Document.source_id := sid;
              Document.filename := fname;
              Document.title := ttl;
              Document.metadata := meta;
              Document.local_path := None;
              Document.sha256 := None;
              Document.file_size := None;
              Document.download_status := "pending";
              Document.error := None;
              Document.created_at := now;
              Document.updated_at := now |} ];
       documents_seq := rowid;
       text_extractions := text_extractions db;
       text_extractions_seq := text_extractions_seq db;
       last_insert_rowid := rowid |}.

(** [insert_document].  [cur.lastrowid] of the cursor that ran the
    [INSERT] is the connection's [sqlite3_last_insert_rowid()] after the
    statement. *)
Definition insert_document (db : Database) (now : timestamp)
    (u src sid fname ttl : string) (metadata : option string)
    : Database * result Z :=
  let db' := insert_or_ignore db now u src sid fname ttl (meta_json metadata) in
  let lastrowid := last_insert_rowid db' in
  if bool_decide (lastrowid ≠ 0) then (db', Ok lastrowid)
  else
    (* Already exists, get its id *)
    match select_by_url db' u with
    | Some r => (db', Ok (Document.id r))
    | None => (db', Raise (TypeError "'NoneType' object is not subscriptable"))
    end.

(** The [SET] clause of [update_download]. *)
Definition set_download (now : timestamp) (st : string)
    (lp sha : option string) (size : option Z) (err : option string)
    (r : Document.row) : Document.row :=
  {| Document.id := Document.id r;
     Document.url := Document.url r;
     Document.source := Document.source r;
     Document.source_id := Document.source_id r;
     Document.filename := Document.filename r;
     Document.title := Document.title r;
     Document.metadata := Document.metadata r;
     Document.local_path := lp;
     Document.sha256 := sha;
     Document.file_size := size;
     Document.download_status := st;
     Document.error := err;
     Document.created_at := Document.created_at r;
     Document.updated_at := now |}.

(** [update_download]: [UPDATE documents SET ... WHERE id = ?] *)
Definition update_download (db : Database) (now : timestamp) (doc_id : Z)
    (st : string) (lp sha : option string) (size : option Z)
    (err : option string) : Database :=
  {| documents :=
       List.map (fun r => if bool_decide (Document.id r = doc_id)
                          then set_download now st lp sha size err r
                          else r)
                (documents db);
     documents_seq := documents_seq db;
     text_extractions := text_extractions db;
     text_extractions_seq := text_extractions_seq db;
     last_insert_rowid := last_insert_rowid db |}.

(** [insert_extraction]: a plain [INSERT], append-only. *)
Definition insert_extraction (db : Database) (now : timestamp)
    (document_id : Z) (output_path method : string)
    (page_count char_count ocr_pages : Z) (st : string)
    (err : option string) : Database :=
  let rowid := text_extractions_seq db + 1 in
  {| documents := documents db;
     documents_seq := documents_seq db;
     text_extractions := text_extractions db ++
       [ {| Extraction.id := rowid;
            Extraction.document_id := document_id;
            Extraction.output_path := output_path;
            Extraction.method := method;
            Extraction.page_count := page_count;
            Extraction.char_count := char_count;
            Extraction.ocr_pages := ocr_pages;
            Extraction.status := st;
            Extraction.error := err;
            Extraction.created_at := now |} ];
     text_extractions_seq := rowid;
     last_insert_rowid := rowid |}.

End Db.

(** ** Configuration ([config.py]) *)

(** The wall clock counts milliseconds; rates and sleeps are exact. *)
Definition second : Z := 1000.

Module Config.

Record DownloadConfig := {
  timeout : Z;
  max_retries : Z;
  backoff_factor : Z;
  default_rate_limit : Z;      (* clock ticks *)
  user_agent : string;
  max_file_size : Z
}.

Record SourceConfig := {
  enabled : bool;
  rate_limit : Z;              (* clock ticks *)
  description : string;
  api_token : string
}.

Record ExtractionConfig := {
  extraction_enabled : bool;
  min_chars_per_page : Z;
  ocr_dpi : Z;
  tesseract_lang : string
}.

Record AppConfig := {
  data_dir : string;
  db_path : string;
  log_dir : string;
  download : DownloadConfig;
  sources : gmap string SourceConfig;
  extraction : ExtractionConfig
}.

(** The dataclass defaults. *)
Definition default_download : DownloadConfig :=
  {| timeout := 120;
     max_retries := 3;
     backoff_factor := 2;
     default_rate_limit := 2 * second;
     user_agent := "EpsteinDocScraper/1.0 (Academic Research)";
     max_file_size := 524288000 |}.

Definition default_source : SourceConfig :=
  {| enabled := true;
     rate_limit := 2 * second;
     description := "";
     api_token := "" |}.

Definition default_extraction : ExtractionConfig :=
  {| extraction_enabled := true;
     min_chars_per_page := 50;
     ocr_dpi := 300;
     tesseract_lang := "eng" |}.

Definition default_app : AppConfig :=
  {| data_dir := "data";
     db_path := "epstein.db";
     log_dir := "logs";
     download := default_download;
     sources := ∅;
     extraction := default_extraction |}.

End Config.

(** ** The world *)

(** A Python [str] whose length is observed: its code points. *)
Definition str := list N.

Inductive file :=
| Binary (data : list Byte.byte)   (* written through [open(path, "wb")] *)
| Text (text : str).               (* written through [open(path, "w")] *)

(** What the program did to the outside, oldest first. *)
Inductive event :=
| EvRateSleep (source : string) (d : Z)   (* [time.sleep] of [rate_limit] *)
| EvRequest (url : string)                (* a GET sent by [_stream_download] *)
| EvRetryWait (attempt : nat) (wait : Z). (* [time.sleep(wait)] of [download_file], in seconds *)

Record World := {
  db : Db.Database;
  fs : gmap string file;                 (* path -> content of the regular files *)
  clock : Z;                             (* [time.time()] *)
  last_request_time : gmap string Z;     (* [Downloader._last_request_time] *)
  trace : list event
}.

Definition set_db (d : Db.Database) (w : World) : World :=
  {| db := d; fs := fs w; clock := clock w;
     last_request_time := last_request_time w; trace := trace w |}.

Definition set_fs (f : gmap string file) (w : World) : World :=
  {| db := db w; fs := f; clock := clock w;
     last_request_time := last_request_time w; trace := trace w |}.

Definition set_clock (t : Z) (w : World) : World :=
  {| db := db w; fs := fs w; clock := t;
     last_request_time := last_request_time w; trace := trace w |}.

Definition set_last_request_time (m : gmap string Z) (w : World) : World :=
  {| db := db w; fs := fs w; clock := clock w;
     last_request_time := m; trace := trace w |}.

Definition log_event (e : event) (w : World) : World :=
  {| db := db w; fs := fs w; clock := clock w;
     last_request_time := last_request_time w; trace := trace w ++ [e] |}.

(** Time that passes without the program asking for it: [d] more ticks. *)
Definition tick (d : N) (w : World) : World :=
  set_clock (clock w + Z.of_N d) w.

(** [time.sleep(d)]: the call returns after [d] ticks or later. *)
Definition time_sleep (d : Z) (late : N) (w : World) : World :=
  set_clock (clock w + d + Z.of_N late) w.

(** ** The download engine ([downloader.py]) *)

Module Downloader.

(** [rate_limit(source, rate)].  [late] is the time by which the sleep
    overruns and the second reading of the clock lags. *)
Definition rate_limit (source : string) (rate : Z) (late : N) (w : World)
    : World :=
  let last := default 0 (last_request_time w !! source) in
  let elapsed := clock w - last in
  let w1 :=
    if bool_decide (elapsed < rate)
    then time_sleep (rate - elapsed) 0 (log_event (EvRateSleep source (rate - elapsed)) w)
    else w in
  let w2 := tick late w1 in
  set_last_request_time (<[source := clock w2]> (last_request_time w2)) w2.

(** What the body of a response does while it is streamed. *)
Inductive body_event :=
| Chunk (data : list Byte.byte)   (* [iter_bytes] yields a chunk *)
| ReadError (msg : string)        (* [iter_bytes] raises a transport error *)
| WriteError (msg : string).      (* [f.write] raises an [OSError] *)

(** What one GET meets: the server's answer and the disk's. *)
Inductive exchange :=
| ConnectError (msg : string)              (* no response: transport error *)
| Response
    (status_error : option string)         (* [raise_for_status]: the error of a non-2xx status *)
    (content_type : option string)
    (content_length : option Z)            (* the header, a decimal number *)
    (open_error : option string)           (* [open(local_path, "wb")] raises *)
    (body : list body_event).

(** The loop [for chunk in resp.iter_bytes(...)] of [_stream_download],
    with the bytes hashed so far in [hashed]. *)
Fixpoint stream_body (max_file_size : Z) (local_path : string)
    (body : list body_event) (hashed : list Byte.byte) (size : Z)
    (w : World) : World * result (list Byte.byte * Z) :=
  match body with
  | [] => (w, Ok (hashed, size))
  | Chunk chunk :: rest =>
      let written :=
        match fs w !! local_path with
        | Some (Binary d) => d
        | _ => []
        end in
      let w1 := set_fs (<[local_path := Binary (written ++ chunk)]> (fs w)) w in
      let hashed1 := hashed ++ chunk in
      let size1 := size + Z.of_nat (length chunk) in
      if bool_decide (size1 > max_file_size)
      then (w1, Raise (ValueError ("File exceeded max size during download: "
                                     +:+ pretty size1 +:+ " bytes")))
      else stream_body max_file_size local_path rest hashed1 size1 w1
  | ReadError msg :: _ => (w, Raise (TransportError msg))
  | WriteError msg :: _ => (w, Raise (OSError msg))
  end.

Section WithHash.

(** [hashlib.sha256(data).hexdigest()] *)
Variable sha256_hexdigest : list Byte.byte → string.

(** [_stream_download(url, local_path)] *)
Definition _stream_download (cfg : Config.AppConfig) (url local_path : string)
    (x : exchange) (w : World) : World * result (string * string * Z) :=
  let w := log_event (EvRequest url) w in
  match x with
  | ConnectError msg => (w, Raise (TransportError msg))
  | Response status_error content_type content_length open_error body =>
      match status_error with
      | Some msg => (w, Raise (HTTPStatusError msg))
      | None =>
          let ct := default "" content_type in
          if Py.contains "text/html" ct
             && (Py.endswith ".pdf" (Py.lower local_path)
                 || Py.endswith ".zip" (Py.lower local_path))
          then (w, Raise (ValueError ("Expected binary but got HTML (content-type: "
                                        +:+ ct +:+ ")")))
          else
            let too_large :=
              match content_length with
              | Some n =>
                  if bool_decide (n > Config.max_file_size (Config.download cfg))
                  then Some (ValueError ("File too large: " +:+ pretty n +:+ " bytes"))
                  else None
              | None => None
              end in
            match too_large with
            | Some e => (w, Raise e)
            | None =>
                if bool_decide (local_path = "")
                then (w, Raise (OSError "[Errno 2] No such file or directory: ''"))
                else
                  match open_error with
                  | Some msg => (w, Raise (OSError msg))
                  | None =>
                      let w1 := set_fs (<[local_path := Binary []]> (fs w)) w in
                      match stream_body (Config.max_file_size (Config.download cfg))
                                        local_path body [] 0 w1 with
                      | (w2, Ok (hashed, size)) =>
                          (w2, Ok (local_path, sha256_hexdigest hashed, size))
                      | (w2, Raise e) => (w2, Raise e)
                      end
                  end
            end
      end
  end.

(** The exceptions caught by the [except] clause of [download_file]. *)
Definition retryable (e : exn) : bool :=
  match e with
  | HTTPStatusError _ | TransportError _ | OSError _ => true
  | ValueError _ | TypeError _ | OtherError _ => false
  end.

(** What one attempt of [download_file] meets. *)
Record attempt_env := {
  rate_late : N;        (* lateness inside [rate_limit] *)
  answer : exchange;
  duration : N;         (* time the request takes *)
  wait_late : N         (* lateness of the sleep before the next attempt *)
}.

(** The loop [for attempt in range(max_retries)] of [download_file] and
    the [raise last_error] after it.  [time.sleep] refuses a negative
    length with a [ValueError], which leaves the handler. *)
Fixpoint attempts_loop (cfg : Config.AppConfig) (url local_path source : string)
    (rate : Z) (env : nat → attempt_env) (attempts : list nat)
    (last_error : option exn) (w : World)
    : World * result (string * string * Z) :=
  match attempts with
  | [] =>
      match last_error with
      | Some e => (w, Raise e)
      | None => (w, Raise (TypeError "exceptions must derive from BaseException"))
      end
  | attempt :: rest =>
      let w1 := rate_limit source rate (rate_late (env attempt)) w in
      match _stream_download cfg url local_path (answer (env attempt)) w1 with
      | (w2, Ok r) => (tick (duration (env attempt)) w2, Ok r)
      | (w2, Raise e) =>
          let w3 := tick (duration (env attempt)) w2 in
          if retryable e then
            let wait := Config.backoff_factor (Config.download cfg) ^ Z.of_nat attempt in
            if bool_decide (wait < 0)
            then (w3, Raise (ValueError "sleep length must be non-negative"))
            else attempts_loop cfg url local_path source rate env rest (Some e)
                   (time_sleep (wait * second) (wait_late (env attempt))
                      (log_event (EvRetryWait attempt wait) w3))
          else (w3, Raise e)
      end
  end.

(** [download_file(url, dest_dir, filename, source, doc_id, source_config)].
    Directories are not represented: [os.makedirs] succeeds. *)
Definition download_file (cfg : Config.AppConfig)
    (url dest_dir filename source : string) (doc_id : Z)
    (source_config : option Config.SourceConfig)
    (env : nat → attempt_env) (w : World)
    : World * result (string * string * Z) :=
  let local_path := Py.os_path_join dest_dir filename in
  let rate :=
    match source_config with
    | Some sc => Config.rate_limit sc
    | None => Config.default_rate_limit (Config.download cfg)
    end in
  let max_retries := Config.max_retries (Config.download cfg) in
  attempts_loop cfg url local_path source rate env
    (seq 0 (Z.to_nat max_retries)) None w.

End WithHash.

End Downloader.

(** ** The text extractor ([extractor.py]) *)

Module Extractor.

Definition MAX_OCR_PAGES : nat := 50.

Record TextExtractor := {
  min_chars : Z;
  ocr_dpi : Z;
  tesseract_lang : string;
  _has_tesseract : bool;
  _has_pdftoppm : bool
}.

(** [str.isspace] of a single code point. *)
Definition is_space (c : N) : bool :=
  (((9 <=? c) && (c <=? 13)) || ((28 <=? c) && (c <=? 32))
   || (c =? 133) || (c =? 160) || (c =? 5760)
   || ((8192 <=? c) && (c <=? 8202))
   || (c =? 8232) || (c =? 8233) || (c =? 8239) || (c =? 8287)
   || (c =? 12288))%N.

Fixpoint lstrip (s : str) : str :=
  match s with
  | c :: r => if is_space c then lstrip r else s
  | [] => []
  end.

(** [s.strip()] *)
Definition strip (s : str) : str :=
  rev (lstrip (rev (lstrip s))).

(** A string literal as code points. *)
Fixpoint lit (s : string) : str :=
  match s with
  | EmptyString => []
  | String c r => N_of_ascii c :: lit r
  end.

(** [sep.join(parts)] *)
Fixpoint join (sep : str) (parts : list str) : str :=
  match parts with
  | [] => []
  | [p] => p
  | p :: rest => p ++ sep ++ join sep rest
  end.

(** [f"--- Page {page_num + 1} ---\n{text}"] *)
Definition page_block (page_num : nat) (text : str) : str :=
  lit "--- Page " ++ lit (pretty (page_num + 1)%nat) ++ lit " ---"
    ++ [10%N] ++ text.

(** The variables of the page loop of [extract]; [ocr_calls] lists the
    pages for which [_ocr_page] was called, latest first. *)
Record loop_state := {
  all_text : list str;
  ocr_pages : nat;
  method : string;
  ocr_calls : list nat
}.

Definition loop_init : loop_state :=
  {| all_text := []; ocr_pages := 0; method := "pymupdf"; ocr_calls := [] |}.

Definition can_ocr (self : TextExtractor) : bool :=
  _has_tesseract self && _has_pdftoppm self.

(** [_ocr_page(pdf_path, page_num)]: the stripped output of tesseract, or
    [""] when a tool fails or times out ([None] of the script). *)
Definition _ocr_page (ocr : nat → option str) (page_num : nat) : str :=
  match ocr page_num with
  | Some stdout => strip stdout
  | None => []
  end.

(** [if len(text) < self.min_chars and can_ocr and ocr_pages < MAX_OCR_PAGES] *)
Definition wants_ocr (self : TextExtractor) (text : str) (st : loop_state) : bool :=
  bool_decide (Z.of_nat (length text) < min_chars self)
  && can_ocr self
  && bool_decide (ocr_pages st < MAX_OCR_PAGES)%nat.

(** [if ocr_text and len(ocr_text) > len(text)] *)
Definition adopts (ocr_text text : str) : bool :=
  negb (bool_decide (ocr_text = []))
  && bool_decide (length text < length ocr_text)%nat.

(** One iteration of [for page_num in range(page_count)], [raw] being
    [page.get_text()]. *)
Definition page_step (self : TextExtractor) (ocr : nat → option str)
    (st : loop_state) (page_num : nat) (raw : str) : loop_state :=
  let text := strip raw in
  if wants_ocr self text st then
    let ocr_text := _ocr_page ocr page_num in
    if adopts ocr_text text then
      {| all_text := all_text st ++ [page_block page_num ocr_text];
         ocr_pages := ocr_pages st + 1;
         method := "pymupdf+ocr";
         ocr_calls := page_num :: ocr_calls st |}
    else
      {| all_text := all_text st ++ [page_block page_num text];
         ocr_pages := ocr_pages st;
         method := method st;
         ocr_calls := page_num :: ocr_calls st |}
  else
    {| all_text := all_text st ++ [page_block page_num text];
       ocr_pages := ocr_pages st;
       method := method st;
       ocr_calls := ocr_calls st |}.

(** The page loop from page [page_num] on. *)
Fixpoint page_loop (self : TextExtractor) (ocr : nat → option str)
    (st : loop_state) (page_num : nat) (pages : list str) : loop_state :=
  match pages with
  | [] => st
  | raw :: rest =>
      page_loop self ocr (page_step self ocr st page_num raw) (S page_num) rest
  end.

(** What [extract] meets: the document [fitz.open] returns (its pages'
    [get_text()]) or the error it raises, the output of tesseract for each
    page, and the error of opening the output file, if any. *)
Record extract_env := {
  opened : result (list str);
  ocr_stdout : nat → option str;
  output_error : option string
}.

(** [extract(pdf_path, output_path)], returning
    [(page_count, char_count, ocr_pages, method)]. *)
Definition extract (self : TextExtractor) (pdf_path output_path : string)
    (env : extract_env) (w : World) : World * result (nat * nat * nat * string) :=
  match opened env with
  | Raise e => (w, Raise e)
  | Ok pages =>
      let page_count := length pages in
      let st := page_loop self (ocr_stdout env) loop_init 0 pages in
      let full_text := join [10%N; 10%N] (all_text st) in
      match output_error env with
      | Some msg => (w, Raise (OSError msg))
      | None =>
          (set_fs (<[output_path := Text full_text]> (fs w)) w,
           Ok (page_count, length full_text, ocr_pages st, method st))
      end
  end.

End Extractor.

(** ** The default adapter loop ([sources/base.py]) *)

Module BaseSource.

Record BaseSource := {
  name : string;
  config : Config.AppConfig;
  extractor : Extractor.TextExtractor
}.

(** [config.sources.get(self.name, SourceConfig())] *)
Definition source_config (self : BaseSource) : Config.SourceConfig :=
  default Config.default_source (Config.sources (config self) !! name self).

(** The metadata dict an adapter yields with a url: the three keys the
    loop reads, each present or not, and [json.dumps] of the dict. *)
Record meta := {
  meta_source_id : option string;
  meta_filename : option string;
  meta_title : option string;
  meta_dumps : string
}.

(** What the loop meets while it handles one discovered url. *)
Record item_env := {
  attempts : nat → Downloader.attempt_env;
  extraction : Extractor.extract_env
}.

Record counters := {
  discovered : nat;
  downloaded : nat;
  skipped : nat;
  failed : nat
}.

Definition count_discovered (c : counters) : counters :=
  {| discovered := discovered c + 1; downloaded := downloaded c;
     skipped := skipped c; failed := failed c |}.

Definition count_downloaded (c : counters) : counters :=
  {| discovered := discovered c; downloaded := downloaded c + 1;
     skipped := skipped c; failed := failed c |}.

Definition count_skipped (c : counters) : counters :=
  {| discovered := discovered c; downloaded := downloaded c;
     skipped := skipped c + 1; failed := failed c |}.

Definition count_failed (c : counters) : counters :=
  {| discovered := discovered c; downloaded := downloaded c;
     skipped := skipped c; failed := failed c + 1 |}.

(** [_extract_text(doc_id, pdf_path)] *)
Definition _extract_text (self : BaseSource) (doc_id : Z) (pdf_path : string)
    (env : Extractor.extract_env) (w : World) : World :=
  let ext_dir :=
    Py.os_path_join (Py.os_path_join (Config.data_dir (config self)) "extracted_text")
                    (name self) in
  let base := Py.os_path_splitext_root (Py.os_path_basename pdf_path) in
  let output_path := Py.os_path_join ext_dir (base +:+ ".txt") in
  match Extractor.extract (extractor self) pdf_path output_path env w with
  | (w1, Ok (page_count, char_count, ocr_pages, method)) =>
      set_db (Db.insert_extraction (db w1) (clock w1) doc_id output_path method
                (Z.of_nat page_count) (Z.of_nat char_count) (Z.of_nat ocr_pages)
                "completed" None) w1
  | (w1, Raise e) =>
      set_db (Db.insert_extraction (db w1) (clock w1) doc_id "" "error" 0 0 0
                "failed" (Some (str_of_exn e))) w1
  end.

Section WithLibraries.

(** [hashlib.sha256(data).hexdigest()] *)
Variable sha256_hexdigest : list Byte.byte → string.
(** [urllib.parse.urlparse(url).path] *)
Variable urlparse_path : string → string.

(** [_filename_from_url(url)] *)
Definition _filename_from_url (url : string) : string :=
  let path := urlparse_path url in
  let name := Py.os_path_basename path in
  if Py.truthy (Some name) then name else "document.pdf".

(** The body of [for url, meta in self.discover()] in [run].  The third
    component is an exception that leaves [run]. *)
Definition run_item (self : BaseSource) (c : counters) (url : string)
    (m : meta) (env : item_env) (w : World) : World * counters * option exn :=
  let c := count_discovered c in
  (* URL dedup *)
  if Db.url_exists (db w) url then (w, count_skipped c, None)
  else
    let source_id := default "" (meta_source_id m) in
    let filename := default (_filename_from_url url) (meta_filename m) in
    let title := default filename (meta_title m) in
    match Db.insert_document (db w) (clock w) url (name self) source_id
            filename title (Some (meta_dumps m)) with
    | (d1, Raise e) => (set_db d1 w, c, Some e)
    | (d1, Ok doc_id) =>
        let w1 := set_db d1 w in
        (* Download *)
        let dest_dir := Py.os_path_join (Config.data_dir (config self)) (name self) in
        let safe_filename :=
          if Py.truthy (Some source_id) then source_id +:+ "__" +:+ filename
          else filename in
        match Downloader.download_file sha256_hexdigest (config self) url dest_dir
                safe_filename (name self) doc_id (Some (source_config self))
                (attempts env) w1 with
        | (w2, Ok (local_path, sha256, file_size)) =>
            (* SHA-256 content dedup *)
            let existing := Db.sha256_exists (db w2) sha256 in
            if Py.truthy existing then
              match fs w2 !! local_path with
              | Some _ =>
                  let w3 := set_fs (delete local_path (fs w2)) w2 in
                  (set_db (Db.update_download (db w3) (clock w3) doc_id "skipped"
                             None None None
                             (Some ("duplicate of " +:+ default "" existing))) w3,
                   count_skipped c, None)
              | None =>
                  (* [os.remove] raises, the handler below records it *)
                  (set_db (Db.update_download (db w2) (clock w2) doc_id "failed"
                             None None None
                             (Some ("[Errno 2] No such file or directory: '"
                                      +:+ local_path +:+ "'"))) w2,
                   count_failed c, None)
              end
            else
              let w3 := set_db (Db.update_download (db w2) (clock w2) doc_id
                                  "downloaded" (Some local_path) (Some sha256)
                                  (Some file_size) None) w2 in
              let c := count_downloaded c in
              (* Extract text if it's a PDF *)
              if Config.extraction_enabled (Config.extraction (config self))
                 && Py.endswith ".pdf" (Py.lower local_path)
              then (_extract_text self doc_id local_path (extraction env) w3, c, None)
              else (w3, c, None)
        | (w2, Raise e) =>
            (set_db (Db.update_download (db w2) (clock w2) doc_id "failed"
                       None None None (Some (str_of_exn e))) w2,
             count_failed c, None)
        end
    end.

(** The loop of [run] over what [discover()] yields, the [i]-th pair
    meeting [env i]. *)
Fixpoint run_loop (self : BaseSource) (items : list (string * meta))
    (env : nat → item_env) (i : nat) (c : counters) (w : World)
    : World * counters * option exn :=
  match items with
  | [] => (w, c, None)
  | (url, m) :: rest =>
      match run_item self c url m (env i) w with
      | (w1, c1, None) => run_loop self rest env (S i) c1 w1
      | (w1, c1, Some e) => (w1, c1, Some e)
      end
  end.

(** [run()] *)
Definition run (self : BaseSource) (items : list (string * meta))
    (env : nat → item_env) (w : World) : World * counters * option exn :=
  run_loop self items env 0
    {| discovered := 0; downloaded := 0; skipped := 0; failed := 0 |} w.

End WithLibraries.

End BaseSource.

(** ** The snowball adapter's catalog entry ([sources/epsteingraph.py]) *)

Module EpsteinGraphSource.

Definition name : string := "epsteingraph".


End EpsteinGraphSource.

(** * Further code of the files above and of their callers *)

(** ** The queries of the catalog store ([db.py]) *)

Module Queries.

(** The join condition of [get_downloaded_docs]:
    [d.id = t.document_id AND t.status = 'completed']. *)
Definition completed_for (doc_id : Z) (t : Extraction.row) : bool :=
  bool_decide (Extraction.document_id t = doc_id)
  && bool_decide (Extraction.status t = "completed").

(** [get_downloaded_docs(source)]: the documents that are [downloaded] and
    that the [LEFT JOIN] pairs with no completed extraction
    ([t.id IS NULL]); with a source that is neither [None] nor empty, only
    the documents of that source. *)
Definition get_downloaded_docs (d : Db.Database) (source : option string)
    : list Document.row :=
  List.filter
    (λ r, bool_decide (Document.download_status r = "downloaded")
          && (if Py.truthy source
              then bool_decide (Some (Document.source r) = source)
              else true)
          && negb (existsb (completed_for (Document.id r)) (Db.text_extractions d)))
    (Db.documents d).

(** [get_pending_docs(source)] *)
Definition get_pending_docs (d : Db.Database) (source : string)
    : list Document.row :=
  List.filter
    (λ r, bool_decide (Document.source r = source)
          && bool_decide (Document.download_status r = "pending"))
    (Db.documents d).

End Queries.

(** ** Plain requests of the download engine ([downloader.py]) *)

Module Fetcher.

(** What [fetch_json] or [fetch_text] meets: the lateness inside
    [rate_limit], the time the request takes, and the body returned or the
    error raised by the request, by [raise_for_status] or by the parser. *)
Record get_env := {
  get_late : N;
  get_duration : N;
  reply : result string
}.

(** [rate or self.config.download.default_rate_limit]: a rate that is
    [None] or zero is falsy. *)
Definition rate_or_default (cfg : Config.AppConfig) (rate : option Z) : Z :=
  match rate with
  | Some r => if bool_decide (r = 0)
              then Config.default_rate_limit (Config.download cfg) else r
  | None => Config.default_rate_limit (Config.download cfg)
  end.

(** [fetch_text(url, source, rate)] *)
Definition fetch_text (cfg : Config.AppConfig) (url source : string)
    (rate : option Z) (env : get_env) (w : World) : World * result string :=
  let r := rate_or_default cfg rate in
  let w1 := Downloader.rate_limit source r (get_late env) w in
  let w2 := log_event (EvRequest url) w1 in
  (tick (get_duration env) w2, reply env).

(** [fetch_json(url, source, rate, headers)]: the same steps; [reply] is
    then the result of [resp.json()]. *)
Definition fetch_json (cfg : Config.AppConfig) (url source : string)
    (rate : option Z) (env : get_env) (w : World) : World * result string :=
  let r := rate_or_default cfg rate in
  let w1 := Downloader.rate_limit source r (get_late env) w in
  let w2 := log_event (EvRequest url) w1 in
  (tick (get_duration env) w2, reply env).

End Fetcher.

(** ** Extraction of what is already downloaded ([main.py]) *)

Module Main.

(** The body of [for doc in docs] in [run_extract_only]. *)
Definition extract_doc (config : Config.AppConfig)
    (extractor : Extractor.TextExtractor) (doc : Document.row)
    (env : Extractor.extract_env) (w : World) : World :=
  let local_path := Document.local_path doc in
  if negb (Py.truthy local_path)
     || negb (Py.endswith ".pdf" (Py.lower (default "" local_path)))
  then w
  else
    match fs w !! default "" local_path with
    | None => w                                (* [os.path.exists] is false *)
    | Some _ =>
        let source := Document.source doc in
        let ext_dir :=
          Py.os_path_join (Py.os_path_join (Config.data_dir config) "extracted_text")
                          source in
        let base := Py.os_path_splitext_root
                      (Py.os_path_basename (default "" local_path)) in
        let output_path := Py.os_path_join ext_dir (base +:+ ".txt") in
        match Extractor.extract extractor (default "" local_path) output_path env w with
        | (w1, Ok (page_count, char_count, ocr_pages, method)) =>
            set_db (Db.insert_extraction (db w1) (clock w1) (Document.id doc)
                      output_path method (Z.of_nat page_count) (Z.of_nat char_count)
                      (Z.of_nat ocr_pages) "completed" None) w1
        | (w1, Raise e) =>
            set_db (Db.insert_extraction (db w1) (clock w1) (Document.id doc)
                      "" "error" 0 0 0 "failed" (Some (str_of_exn e))) w1
        end
    end.

(** The loop over the documents, the [i]-th meeting [env i]. *)
Fixpoint extract_docs (config : Config.AppConfig)
    (extractor : Extractor.TextExtractor) (docs : list Document.row)
    (env : nat → Extractor.extract_env) (i : nat) (w : World) : World :=
  match docs with
  | [] => w
  | doc :: rest =>
      extract_docs config extractor rest env (S i)
        (extract_doc config extractor doc (env i) w)
  end.

(** [run_extract_only(config, db, source_name)]: the documents are read
    once, before the loop. *)
Definition run_extract_only (config : Config.AppConfig)
    (extractor : Extractor.TextExtractor) (source_name : option string)
    (env : nat → Extractor.extract_env) (w : World) : World :=
  let docs := Queries.get_downloaded_docs (db w) source_name in
  extract_docs config extractor docs env 0 w.

End Main.

(** * Vocabulary of the properties, and sample inputs *)

(** The text [page_step] keeps for a page. *)
Definition kept_text (self : Extractor.TextExtractor) (ocr : nat → option str)
    (st : Extractor.loop_state) (page_num : nat) (raw : str) : str :=
  if Extractor.wants_ocr self (Extractor.strip raw) st
     && Extractor.adopts (Extractor._ocr_page ocr page_num) (Extractor.strip raw)
  then Extractor._ocr_page ocr page_num else Extractor.strip raw.

(** [method] says whether a page was counted. *)
Definition method_agrees (st : Extractor.loop_state) : Prop :=
  Extractor.method st
  = if bool_decide (Extractor.ocr_pages st = 0%nat) then "pymupdf" else "pymupdf+ocr".

(** The state in which the loop reaches page [i]. *)
Definition state_at (self : Extractor.TextExtractor) (ocr : nat → option str)
    (pages : list str) (i : nat) : Extractor.loop_state :=
  Extractor.page_loop self ocr Extractor.loop_init 0 (take i pages).

(** The row of C10's example: a downloaded document marked [failed] with
    only an error message loses its path, hash and size. *)
Definition downloaded_row : Document.row :=
  {| Document.id := 7;
     Document.url := "https://example.org/a.pdf";
     Document.source := "doj";
     Document.source_id := "";
     Document.filename := "a.pdf";
     Document.title := "a.pdf";
     Document.metadata := "{}";
     Document.local_path := Some "data/doj/a.pdf";
     Document.sha256 := Some "9f86d081884c7d65";
     Document.file_size := Some 4096;
     Document.download_status := "downloaded";
     Document.error := None;
     Document.created_at := 100;
     Document.updated_at := 200 |}.

Definition one_downloaded : Db.Database :=
  {| Db.documents := [downloaded_row];
     Db.documents_seq := 7;
     Db.text_extractions := [];
     Db.text_extractions_seq := 0;
     Db.last_insert_rowid := 7 |}.

(** A tool-less extractor and a document of one page without text. *)
Definition extractor_without_ocr : Extractor.TextExtractor :=
  {| Extractor.min_chars := 50;
     Extractor.ocr_dpi := 300;
     Extractor.tesseract_lang := "eng";
     Extractor._has_tesseract := false;
     Extractor._has_pdftoppm := false |}.

Definition blank_page_pdf : Extractor.extract_env :=
  {| Extractor.opened := Ok [[]];
     Extractor.ocr_stdout := λ _, None;
     Extractor.output_error := None |}.

Definition world0 : World :=
  {| db := Db.empty; fs := ∅; clock := 1700000000 * second;
     last_request_time := ∅; trace := [] |}.

(** An extractor with both OCR tools, a tesseract that reads the same words
    on every page, and a document of three pages, the first two without
    text. *)
Definition extractor_with_ocr : Extractor.TextExtractor :=
  {| Extractor.min_chars := 50;
     Extractor.ocr_dpi := 300;
     Extractor.tesseract_lang := "eng";
     Extractor._has_tesseract := true;
     Extractor._has_pdftoppm := true |}.

Definition reads_scanned : nat → option str :=
  λ _, Some (Extractor.lit "scanned text").

Definition three_pages : list str := [[]; []; Extractor.lit "native"].

(** The text written for [n] pages without any text: the page markers and
    the blank lines between them. *)
Definition markers_only (n : nat) : str :=
  Extractor.join [10%N; 10%N] ((λ i, Extractor.page_block i []) <$> seq 0 n).

(** What may happen between two requests to a source: time passes, and
    [rate_limit] is called, for this source or another. *)
Inductive action :=
| Pass (d : N)
| Limit (source : string) (rate : Z) (late : N).

Definition act (w : World) (a : action) : World :=
  match a with
  | Pass d => tick d w
  | Limit source rate late => Downloader.rate_limit source rate late w
  end.

Definition acts (w : World) (l : list action) : World := fold_left act l w.

(** The request time recorded for [s], if any, does not lie in the future. *)
Definition recorded_in_past (s : string) (w : World) : Prop :=
  ∀ t, last_request_time w !! s = Some t → t ≤ clock w.

(** The GETs and the retry waits among the events of a trace. *)
Fixpoint requests (t : list event) : nat :=
  match t with
  | [] => 0
  | EvRequest _ :: rest => S (requests rest)
  | _ :: rest => requests rest
  end.

Fixpoint retry_waits (t : list event) : list Z :=
  match t with
  | [] => []
  | EvRetryWait _ wait :: rest => wait :: retry_waits rest
  | _ :: rest => retry_waits rest
  end.

(** How one attempt ends; it does not depend on the world it starts in. *)
Definition outcome (sha : list Byte.byte → string) (cfg : Config.AppConfig)
    (url local_path : string) (x : Downloader.exchange)
    : result (string * string * Z) :=
  (Downloader._stream_download sha cfg url local_path x world0).2.

(** An attempt that ends in an error [download_file] retries. *)
Definition fails_retryably (r : result (string * string * Z)) : Prop :=
  ∃ e, r = Raise e ∧ Downloader.retryable e = true.


(** A stand-in for SHA-256 in the examples: the length of the data. *)
Definition length_digest (data : list Byte.byte) : string := pretty (length data).




(** Sample inputs: the [doj] adapter with the default configuration, a url
    without metadata, and a server that answers every request with the same
    PDF bytes. *)
Definition doj : BaseSource.BaseSource :=
  {| BaseSource.name := "doj";
     BaseSource.config := Config.default_app;
     BaseSource.extractor := extractor_without_ocr |}.

Definition no_meta : BaseSource.meta :=
  {| BaseSource.meta_source_id := None;
     BaseSource.meta_filename := None;
     BaseSource.meta_title := None;
     BaseSource.meta_dumps := "{}" |}.

Definition serving (body : list Downloader.body_event) : BaseSource.item_env :=
  {| BaseSource.attempts :=
       λ _, {| Downloader.rate_late := 0;
               Downloader.answer :=
                 Downloader.Response None (Some "application/pdf") None None body;
               Downloader.duration := 40;
               Downloader.wait_late := 0 |};
     BaseSource.extraction := blank_page_pdf |}.

Definition pdf_bytes : list Byte.byte := [Byte.x25; Byte.x50; Byte.x44; Byte.x46].

(** The ids in use do not exceed the counter of the table. *)
Definition ids_ok (d : Db.Database) : Prop :=
  0 ≤ Db.documents_seq d
  ∧ ∀ r, r ∈ Db.documents d → Document.id r ≤ Db.documents_seq d.

(** A [downloaded] row with a hash has a path that is not empty. *)
Definition content_located (docs : list Document.row) : Prop :=
  ∀ r h, r ∈ docs → Document.download_status r = "downloaded" →
    Document.sha256 r = Some h → Py.truthy (Document.local_path r) = true.

(** No two [downloaded] rows share a hash. *)
Definition no_duplicate_content (docs : list Document.row) : Prop :=
  ∀ i j r1 r2 h,
    docs !! i = Some r1 → docs !! j = Some r2 →
    Document.download_status r1 = "downloaded" →
    Document.download_status r2 = "downloaded" →
    Document.sha256 r1 = Some h → Document.sha256 r2 = Some h →
    i = j.

Definition catalog_ok (d : Db.Database) : Prop :=
  ids_ok d ∧ content_located (Db.documents d) ∧ no_duplicate_content (Db.documents d).

(** The call of [download_file] in the loop's body, for a url that is new:
    the document has been inserted, under the next id. *)
Definition item_download (sha : list Byte.byte → string) (urlparse : string → string)
    (self : BaseSource.BaseSource) (url : string) (m : BaseSource.meta)
    (env : BaseSource.item_env) (w : World)
    : World * result (string * string * Z) :=
  let source_id := default "" (BaseSource.meta_source_id m) in
  let filename := default (BaseSource._filename_from_url urlparse url)
                    (BaseSource.meta_filename m) in
  let title := default filename (BaseSource.meta_title m) in
  let d1 := (Db.insert_document (db w) (clock w) url (BaseSource.name self)
               source_id filename title (Some (BaseSource.meta_dumps m))).1 in
  Downloader.download_file sha (BaseSource.config self) url
    (Py.os_path_join (Config.data_dir (BaseSource.config self)) (BaseSource.name self))
    (if Py.truthy (Some source_id) then source_id +:+ "__" +:+ filename else filename)
    (BaseSource.name self) (Db.documents_seq (db w) + 1)
    (Some (BaseSource.source_config self)) (BaseSource.attempts env)
    (set_db d1 w).

(** The world after the [doj] adapter has downloaded a first url. *)
Definition after_first_download : World :=
  (BaseSource.run length_digest Py.os_path_basename doj
     [("https://x.org/a.pdf", no_meta)]
     (λ _, serving [Downloader.Chunk pdf_bytes]) world0).1.1.

(** The message of the error raised when the byte counter passes the cap. *)
Definition exceeded_message (size : Z) : string :=
  "File exceeded max size during download: " +:+ pretty size +:+ " bytes".

(** An exchange in which the byte counter passes [max_file_size] while the
    body is streamed: the status is fine, the headers pass the two checks
    made before the file is opened, the file opens, and the chunks received
    up to some chunk stay within the cap while that chunk passes it.
    [data] is what has been received by then. *)
Definition over_cap (cfg : Config.AppConfig) (local_path : string)
    (x : Downloader.exchange) (data : list Byte.byte) : Prop :=
  ∃ content_type content_length chunks chunk rest,
    x = Downloader.Response None content_type content_length None
          ((Downloader.Chunk <$> chunks) ++ Downloader.Chunk chunk :: rest)
    ∧ Py.contains "text/html" (default "" content_type)
      && (Py.endswith ".pdf" (Py.lower local_path)
          || Py.endswith ".zip" (Py.lower local_path)) = false
    ∧ (∀ n, content_length = Some n →
         n ≤ Config.max_file_size (Config.download cfg))
    ∧ local_path ≠ ""
    ∧ data = concat chunks ++ chunk
    ∧ Z.of_nat (length (concat chunks)) ≤ Config.max_file_size (Config.download cfg)
    ∧ Config.max_file_size (Config.download cfg) < Z.of_nat (length data).

(** Where the loop's body stores the file of a url. *)
Definition item_path (urlparse : string → string) (self : BaseSource.BaseSource)
    (url : string) (m : BaseSource.meta) : string :=
  let source_id := default "" (BaseSource.meta_source_id m) in
  let filename := default (BaseSource._filename_from_url urlparse url)
                    (BaseSource.meta_filename m) in
  Py.os_path_join
    (Py.os_path_join (Config.data_dir (BaseSource.config self)) (BaseSource.name self))
    (if Py.truthy (Some source_id) then source_id +:+ "__" +:+ filename else filename).

(** The [doj] adapter with a cap of 3 bytes. *)
Definition doj_capped : BaseSource.BaseSource :=
  {| BaseSource.name := "doj";
     BaseSource.config :=
       {| Config.data_dir := "data";
          Config.db_path := "epstein.db";
          Config.log_dir := "logs";
          Config.download :=
            {| Config.timeout := 120;
               Config.max_retries := 3;
               Config.backoff_factor := 2;
               Config.default_rate_limit := 2 * second;
               Config.user_agent := "EpsteinDocScraper/1.0 (Academic Research)";
               Config.max_file_size := 3 |};
          Config.sources := ∅;
          Config.extraction := Config.default_extraction |};
     BaseSource.extractor := extractor_without_ocr |}.

(** ** Vocabulary of the further properties *)

(** The urls of the rows of table [documents], in row order. *)
Definition urls (docs : list Document.row) : list string :=
  Document.url <$> docs.

(** Column [url] is unique. *)
Definition urls_unique (d : Db.Database) : Prop := NoDup (urls (Db.documents d)).


(** The world an interrupted run leaves: a url has its row, and the process
    ended before the download did. *)
Definition interrupted : World :=
  set_db (Db.insert_document Db.empty (clock world0) "https://x.org/b.pdf" "doj"
            "" "b.pdf" "b.pdf" None).1 world0.

Definition pending_row : Document.row :=
  {| Document.id := 1;
     Document.url := "https://x.org/b.pdf";
     Document.source := "doj";
     Document.source_id := "";
     Document.filename := "b.pdf";
     Document.title := "b.pdf";
     Document.metadata := "{}";
     Document.local_path := None;
     Document.sha256 := None;
     Document.file_size := None;
     Document.download_status := "pending";
     Document.error := None;
     Document.created_at := clock world0;
     Document.updated_at := clock world0 |}.

(** A server that answers with the HTML page of an age gate, and one that
    announces four bytes. *)
Definition age_gate : nat → Downloader.attempt_env :=
  λ _, {| Downloader.rate_late := 0;
          Downloader.answer :=
            Downloader.Response None (Some "text/html; charset=utf-8") None None
              [Downloader.Chunk pdf_bytes];
          Downloader.duration := 40;
          Downloader.wait_late := 0 |}.

Definition announcing_4_bytes : nat → Downloader.attempt_env :=
  λ _, {| Downloader.rate_late := 0;
          Downloader.answer :=
            Downloader.Response None (Some "application/pdf") (Some 4) None
              [Downloader.Chunk pdf_bytes];
          Downloader.duration := 40;
          Downloader.wait_late := 0 |}.

(** A server that answers a plain request at once. *)
Definition answering : Fetcher.get_env :=
  {| Fetcher.get_late := 0; Fetcher.get_duration := 25; Fetcher.reply := Ok "{}" |}.

(** The number of code points in the text layer of a document: the text of
    each page as [extract] takes it, stripped. *)
Definition native_chars (pages : list str) : nat :=
  sum_list ((λ raw, length (Extractor.strip raw)) <$> pages).

(** The total length of a list of strings. *)
Definition total_length (parts : list str) : nat := sum_list (length <$> parts).

(** A file that [fitz.open] refuses. *)
Definition broken_pdf : Extractor.extract_env :=
  {| Extractor.opened := Raise (OtherError "cannot open broken document");
     Extractor.ocr_stdout := λ _, None;
     Extractor.output_error := None |}.

(** The document of three pages, read by a tesseract that finds the same
    words on every page. *)
Definition scanned_document : Extractor.extract_env :=
  {| Extractor.opened := Ok three_pages;
     Extractor.ocr_stdout := reads_scanned;
     Extractor.output_error := None |}.

(** The documents the extraction pass of [main.py] takes from its list:
    those with a path that ends in [.pdf], whatever the case, and at which a
    file exists. *)
Definition eligible (f : gmap string file) (doc : Document.row) : bool :=
  Py.truthy (Document.local_path doc)
  && Py.endswith ".pdf" (Py.lower (default "" (Document.local_path doc)))
  && bool_decide (is_Some (f !! default "" (Document.local_path doc))).

(** The document opens and its text file can be written. *)
Definition succeeds (env : Extractor.extract_env) : Prop :=
  (∃ pages, Extractor.opened env = Ok pages) ∧ Extractor.output_error env = None.

(** A catalog with one downloaded document whose file is on the disk. *)
Definition downloaded_world : World :=
  set_fs (<["data/doj/a.pdf" := Binary pdf_bytes]> ∅) (set_db one_downloaded world0).

(** [c in s], for a character. *)
Fixpoint mentions (c : Ascii.ascii) (s : string) : bool :=
  match s with
  | EmptyString => false
  | String a r => bool_decide (a = c) || mentions c r
  end.

(** * Properties *)

(** ** The catalog store *)

Section CatalogFacts.

Implicit Types (d : Db.Database) (r : Document.row).

Lemma url_exists_true d u :
  Db.url_exists d u = true ↔ ∃ r, r ∈ Db.documents d ∧ Document.url r = u.
Proof.
  unfold Db.url_exists, Db.select_by_url.
  destruct (List.find _ _) as [r|] eqn:Hf.
  - apply find_some in Hf as [Hin Hu].
    apply bool_decide_eq_true in Hu.
    split; [intros _|done]. exists r. by rewrite list_elem_of_In.
  - split; [done|]. intros (r & Hin & Hu).
    apply list_elem_of_In in Hin.
    pose proof (find_none _ _ Hf r Hin) as Hn. simpl in Hn.
    apply bool_decide_eq_false in Hn. done.
Qed.


(** The documents after [insert_document]: unchanged, or one more
    [pending] row. *)
Lemma insert_document_documents d now u src sid fname ttl metadata :
  let d' := (Db.insert_document d now u src sid fname ttl metadata).1 in
  if Db.url_exists d u
  then d' = d
  else ∃ r, Db.documents d' = Db.documents d ++ [r]
            ∧ Document.id r = Db.documents_seq d + 1
            ∧ Document.url r = u
            ∧ Document.download_status r = "pending"
            ∧ Document.local_path r = None
            ∧ Document.sha256 r = None
            ∧ Document.file_size r = None
            ∧ Db.documents_seq d' = Db.documents_seq d + 1
            ∧ Db.text_extractions d' = Db.text_extractions d.
Proof.
  unfold Db.insert_document, Db.insert_or_ignore.
  destruct (Db.url_exists d u) eqn:He; simpl.
  - case_bool_decide; [done|]. by destruct (Db.select_by_url d u).
  - case_bool_decide; simpl.
    + eexists; repeat split; reflexivity.
    + destruct (Db.select_by_url _ u); simpl;
        eexists; repeat split; reflexivity.
Qed.

(** A new url on a database whose counter is not negative: the id
    returned is the id of the row just inserted. *)
Lemma insert_document_new d now u src sid fname ttl metadata :
  Db.url_exists d u = false →
  0 ≤ Db.documents_seq d →
  (Db.insert_document d now u src sid fname ttl metadata).2
  = Ok (Db.documents_seq d + 1).
Proof.
  intros He Hs. unfold Db.insert_document, Db.insert_or_ignore.
  rewrite He. simpl. case_bool_decide; [done|lia].
Qed.



Lemma update_download_lookup d now doc_id st lp sha size err i :
  Db.documents (Db.update_download d now doc_id st lp sha size err) !! i
  = (λ r, if bool_decide (Document.id r = doc_id)
          then Db.set_download now st lp sha size err r else r)
    <$> Db.documents d !! i.
Proof. simpl. apply list_lookup_fmap. Qed.

End CatalogFacts.

(** C10. Every call to [update_download] overwrites the five columns
    [download_status], [local_path], [sha256], [file_size] and [error] of the
    row with the given id with exactly the arguments passed, an argument left
    out storing [NULL]; the row's other columns keep their values, except
    [updated_at], which takes the current time; no other row and no other
    table changes. *)
Theorem update_download_overwrites
    (d : Db.Database) (now : timestamp) (doc_id : Z) (st : string)
    (lp sha : option string) (size : option Z) (err : option string) :
  let d' := Db.update_download d now doc_id st lp sha size err in
  length (Db.documents d') = length (Db.documents d)
  ∧ (∀ i r, Db.documents d !! i = Some r → Document.id r = doc_id →
       ∃ r', Db.documents d' !! i = Some r'
         ∧ Document.download_status r' = st
         ∧ Document.local_path r' = lp
         ∧ Document.sha256 r' = sha
         ∧ Document.file_size r' = size
         ∧ Document.error r' = err
         ∧ Document.updated_at r' = now
         ∧ Document.id r' = Document.id r
         ∧ Document.url r' = Document.url r
         ∧ Document.source r' = Document.source r
         ∧ Document.source_id r' = Document.source_id r
         ∧ Document.filename r' = Document.filename r
         ∧ Document.title r' = Document.title r
         ∧ Document.metadata r' = Document.metadata r
         ∧ Document.created_at r' = Document.created_at r)
  ∧ (∀ i r, Db.documents d !! i = Some r → Document.id r ≠ doc_id →
       Db.documents d' !! i = Some r)
  ∧ Db.text_extractions d' = Db.text_extractions d
  ∧ Db.documents_seq d' = Db.documents_seq d
  ∧ Db.text_extractions_seq d' = Db.text_extractions_seq d
  ∧ Db.last_insert_rowid d' = Db.last_insert_rowid d.
Proof.
  intros d'. subst d'. split; [simpl; by rewrite length_map|].
  split; [|split; [|done]].
  - intros i r Hi Hid. rewrite update_download_lookup, Hi. simpl.
    rewrite bool_decide_eq_true_2 by done.
    eexists; split; [reflexivity|]. simpl. repeat split; reflexivity.
  - intros i r Hi Hid. rewrite update_download_lookup, Hi. simpl.
    by rewrite bool_decide_eq_false_2.
Qed.

Lemma update_download_overwrites_witness :
  ∃ r', Db.documents (Db.update_download one_downloaded 300 7 "failed"
                        None None None (Some "timeout")) !! 0%nat = Some r'
    ∧ Document.download_status r' = "failed"
    ∧ Document.local_path r' = None
    ∧ Document.sha256 r' = None
    ∧ Document.file_size r' = None
    ∧ Document.error r' = Some "timeout"
    ∧ Document.updated_at r' = 300
    ∧ Document.created_at r' = 100.
Proof.
  destruct (update_download_overwrites one_downloaded 300 7 "failed"
              None None None (Some "timeout")) as (_ & Hrow & _).
  destruct (Hrow 0%nat downloaded_row eq_refl eq_refl)
    as (r' & H0 & H1 & H2 & H3 & H4 & H5 & H6 & _ & _ & _ & _ & _ & _ & _ & H7).
  exists r'. repeat split; assumption.
Defined.

(** C4 (the code departs from it). Three calls on one connection, starting
    from the empty catalog: the third, for the url of the first, inserts
    nothing and leaves the rows as they were, but returns 2, the id of the
    row of the second url, where the row of its own url has id 1. *)
Theorem insert_document_existing_url_returns_stale_id :
  let '(d1, r1) := Db.insert_document Db.empty 10 "https://x.org/a.pdf" "doj" "" "a.pdf" "a.pdf" None in
  let '(d2, r2) := Db.insert_document d1 20 "https://x.org/b.pdf" "doj" "" "b.pdf" "b.pdf" None in
  let '(d3, r3) := Db.insert_document d2 30 "https://x.org/a.pdf" "doj" "" "a.pdf" "a.pdf" None in
  r1 = Ok 1 ∧ r2 = Ok 2
  ∧ Db.documents d3 = Db.documents d2
  ∧ Document.id <$> Db.select_by_url d3 "https://x.org/a.pdf" = Some 1
  ∧ r3 = Ok 2.
Proof. vm_compute. repeat split; reflexivity. Qed.

(** ** The text extractor *)

Section ExtractorFacts.

Import Extractor.

Variables (self : TextExtractor) (ocr : nat → option str).

Lemma page_step_all_text st n raw :
  all_text (page_step self ocr st n raw)
  = all_text st ++ [page_block n (kept_text self ocr st n raw)].
Proof.
  unfold page_step, kept_text.
  destruct (wants_ocr self (strip raw) st); [|done].
  by destruct (adopts _ _).
Qed.

Lemma page_step_ocr_calls st n raw :
  ocr_calls (page_step self ocr st n raw)
  = if wants_ocr self (strip raw) st then n :: ocr_calls st else ocr_calls st.
Proof.
  unfold page_step.
  destruct (wants_ocr self (strip raw) st); [|done].
  by destruct (adopts _ _).
Qed.

Lemma page_step_ocr_pages st n raw :
  ocr_pages (page_step self ocr st n raw)
  = (ocr_pages st
     + if wants_ocr self (strip raw) st && adopts (_ocr_page ocr n) (strip raw)
       then 1 else 0)%nat.
Proof.
  unfold page_step.
  destruct (wants_ocr self (strip raw) st); simpl; [|lia].
  destruct (adopts _ _); simpl; lia.
Qed.

Lemma page_step_method st n raw :
  method_agrees st → method_agrees (page_step self ocr st n raw).
Proof.
  unfold method_agrees, page_step.
  destruct (wants_ocr self (strip raw) st); [|done].
  destruct (adopts _ _); [|done]. simpl. intros _.
  rewrite bool_decide_eq_false_2; [done|lia].
Qed.

Lemma page_step_bound st n raw :
  (ocr_pages st ≤ MAX_OCR_PAGES)%nat →
  (ocr_pages (page_step self ocr st n raw) ≤ MAX_OCR_PAGES)%nat.
Proof.
  intros Hb. rewrite page_step_ocr_pages.
  unfold wants_ocr.
  destruct (bool_decide (ocr_pages st < MAX_OCR_PAGES)%nat) eqn:Hlt.
  - apply bool_decide_eq_true in Hlt.
    destruct (_ && adopts _ _); lia.
  - rewrite andb_false_r. simpl. lia.
Qed.

Lemma page_loop_app st n l1 l2 :
  page_loop self ocr st n (l1 ++ l2)
  = page_loop self ocr (page_loop self ocr st n l1) (n + length l1) l2.
Proof.
  revert st n. induction l1 as [|raw l1 IH]; intros st n; simpl.
  - by rewrite Nat.add_0_r.
  - rewrite IH. f_equal. lia.
Qed.

Lemma page_loop_bound st n l :
  (ocr_pages st ≤ MAX_OCR_PAGES)%nat →
  (ocr_pages (page_loop self ocr st n l) ≤ MAX_OCR_PAGES)%nat.
Proof.
  revert st n. induction l as [|raw l IH]; intros st n Hb; simpl; [done|].
  apply IH. by apply page_step_bound.
Qed.

Lemma page_loop_method st n l :
  method_agrees st → method_agrees (page_loop self ocr st n l).
Proof.
  revert st n. induction l as [|raw l IH]; intros st n Hm; simpl; [done|].
  apply IH. by apply page_step_method.
Qed.

(** The loop only appends to [all_text], one block per page. *)
Lemma page_loop_all_text st n l :
  ∃ more, all_text (page_loop self ocr st n l) = all_text st ++ more
          ∧ length more = length l.
Proof.
  revert st n. induction l as [|raw l IH]; intros st n; simpl.
  - exists []. by rewrite app_nil_r.
  - destruct (IH (page_step self ocr st n raw) (S n)) as (more & -> & Hl).
    rewrite page_step_all_text, <- app_assoc.
    eexists; split; [done|]. simpl. by rewrite Hl.
Qed.

(** The pages recorded in [ocr_calls] by the loop from page [n] on are
    numbered from [n]; what was recorded before stays. *)
Lemma page_loop_ocr_calls st n l j :
  j ∈ ocr_calls (page_loop self ocr st n l) →
  j ∈ ocr_calls st ∨ (n ≤ j)%nat.
Proof.
  revert st n. induction l as [|raw l IH]; intros st n; simpl; [by left|].
  intros [Hj|Hj]%IH; [|right; lia].
  rewrite page_step_ocr_calls in Hj.
  destruct (wants_ocr _ _ _); [|by left].
  apply elem_of_cons in Hj as [->|Hj]; [right; lia|by left].
Qed.

Lemma page_loop_ocr_calls_mono st n l j :
  j ∈ ocr_calls st → j ∈ ocr_calls (page_loop self ocr st n l).
Proof.
  revert st n. induction l as [|raw l IH]; intros st n Hj; simpl; [done|].
  apply IH. rewrite page_step_ocr_calls.
  destruct (wants_ocr _ _ _); [by apply elem_of_cons; right|done].
Qed.

Lemma state_at_length pages i :
  (i ≤ length pages)%nat → length (all_text (state_at self ocr pages i)) = i.
Proof.
  intros Hi. unfold state_at.
  destruct (page_loop_all_text loop_init 0 (take i pages)) as (more & -> & Hl).
  simpl. rewrite Hl, length_take. lia.
Qed.

Lemma state_at_ocr_calls pages i j :
  (i ≤ length pages)%nat → j ∈ ocr_calls (state_at self ocr pages i) → (j < i)%nat.
Proof.
  revert j. induction i as [|i IH]; intros j Hi.
  - unfold state_at. simpl. by intros ?%elem_of_nil.
  - unfold state_at.
    destruct (lookup_lt_is_Some_2 pages i) as [raw Hraw]; [lia|].
    rewrite (take_S_r _ _ _ Hraw), page_loop_app. simpl.
    rewrite page_step_ocr_calls, length_take. fold (state_at self ocr pages i).
    destruct (wants_ocr _ _ _).
    + intros [->|Hj]%elem_of_cons; [lia|].
      assert (j < i)%nat by (apply IH; [lia|done]). lia.
    + intros Hj. assert (j < i)%nat by (apply IH; [lia|done]). lia.
Qed.

Lemma state_at_S pages i raw :
  pages !! i = Some raw →
  state_at self ocr pages (S i) = page_step self ocr (state_at self ocr pages i) i raw.
Proof.
  intros Hraw. unfold state_at.
  rewrite (take_S_r _ _ _ Hraw), page_loop_app. simpl.
  f_equal. rewrite length_take. apply lookup_lt_Some in Hraw. lia.
Qed.

Lemma page_loop_from_state_at pages i raw :
  pages !! i = Some raw →
  page_loop self ocr loop_init 0 pages
  = page_loop self ocr (state_at self ocr pages (S i)) (S i) (drop (S i) pages).
Proof.
  intros Hraw.
  rewrite <- (take_drop (S i) pages) at 1.
  rewrite page_loop_app. unfold state_at. f_equal.
  rewrite length_take. apply lookup_lt_Some in Hraw. lia.
Qed.

End ExtractorFacts.

(** C6. In the page loop of [extract], [_ocr_page] is called for a page
    exactly when its native text is shorter than [min_chars], both OCR tools
    are present and fewer than 50 pages have been counted so far; the page's
    text in the output is the OCR text exactly when OCR was called and its
    text is strictly longer than the native one, and the native text
    otherwise; [ocr_pages] grows by one exactly on such a page and is left
    alone on any other; at the end [ocr_pages] is at most 50. *)
Theorem ocr_policy
    (self : Extractor.TextExtractor) (ocr : nat → option str) (pages : list str) :
  let final := Extractor.page_loop self ocr Extractor.loop_init 0 pages in
  (Extractor.ocr_pages final ≤ 50)%nat
  ∧ ∀ i raw, pages !! i = Some raw →
      let before := Extractor.page_loop self ocr Extractor.loop_init 0 (take i pages) in
      let after := Extractor.page_loop self ocr Extractor.loop_init 0 (take (S i) pages) in
      let text := Extractor.strip raw in
      let ocr_text := Extractor._ocr_page ocr i in
      let adopted := bool_decide (i ∈ Extractor.ocr_calls final)
                     && bool_decide (length text < length ocr_text)%nat in
      (i ∈ Extractor.ocr_calls final ↔
         Z.of_nat (length text) < Extractor.min_chars self
         ∧ Extractor._has_tesseract self = true
         ∧ Extractor._has_pdftoppm self = true
         ∧ (Extractor.ocr_pages before < 50)%nat)
      ∧ Extractor.all_text final !! i
        = Some (Extractor.page_block i (if adopted then ocr_text else text))
      ∧ Extractor.ocr_pages after
        = (Extractor.ocr_pages before + if adopted then 1 else 0)%nat.
Proof.
  intros final. split.
  { apply page_loop_bound. simpl. unfold Extractor.MAX_OCR_PAGES. lia. }
  intros i raw Hraw before after text ocr_text adopted.
  pose proof (lookup_lt_Some _ _ _ Hraw) as Hlen.
  fold (state_at self ocr pages i) in before.
  fold (state_at self ocr pages (S i)) in after.
  assert (Hfinal : final = Extractor.page_loop self ocr after (S i) (drop (S i) pages)).
  { subst final after. by apply (page_loop_from_state_at self ocr pages i raw). }
  assert (Hafter : after = Extractor.page_step self ocr before i raw).
  { subst after before. by apply state_at_S. }
  (* the call for page i is decided when the loop is at page i *)
  assert (Hcall : i ∈ Extractor.ocr_calls final
                  ↔ Extractor.wants_ocr self text before = true).
  { rewrite Hfinal. split.
    - intros [Hi|Hi]%page_loop_ocr_calls; [|lia].
      rewrite Hafter, page_step_ocr_calls in Hi. fold text in Hi.
      destruct (Extractor.wants_ocr self text before); [done|].
      apply state_at_ocr_calls in Hi; lia.
    - intros Hw. apply page_loop_ocr_calls_mono.
      rewrite Hafter, page_step_ocr_calls. fold text. rewrite Hw.
      apply elem_of_cons; by left. }
  assert (Hadopted : adopted
                     = Extractor.wants_ocr self text before
                       && Extractor.adopts ocr_text text).
  { subst adopted. unfold Extractor.adopts.
    destruct (Extractor.wants_ocr self text before) eqn:Hw.
    - rewrite bool_decide_eq_true_2 by (by apply Hcall). simpl.
      destruct (bool_decide (length text < length ocr_text)%nat) eqn:Hlt;
        [|by rewrite andb_false_r].
      apply bool_decide_eq_true in Hlt.
      rewrite bool_decide_eq_false_2; [done|].
      intros Heq. rewrite Heq in Hlt. simpl in Hlt. lia.
    - rewrite bool_decide_eq_false_2; [done|].
      intros Hi. apply Hcall in Hi. congruence. }
  split; [|split].
  - rewrite Hcall. unfold Extractor.wants_ocr, Extractor.can_ocr, Extractor.MAX_OCR_PAGES.
    rewrite !andb_true_iff, !bool_decide_eq_true. tauto.
  - rewrite Hfinal.
    destruct (page_loop_all_text self ocr after (S i) (drop (S i) pages))
      as (more & -> & _).
    rewrite Hafter, page_step_all_text.
    rewrite <- app_assoc, lookup_app_r
      by (subst before; rewrite state_at_length; lia).
    subst before. rewrite state_at_length by lia.
    rewrite Nat.sub_diag. simpl. unfold kept_text.
    fold text ocr_text. by rewrite <- Hadopted.
  - rewrite Hafter, page_step_ocr_pages. fold text ocr_text.
    by rewrite <- Hadopted.
Qed.

Lemma ocr_policy_witness :
  let final := Extractor.page_loop extractor_with_ocr reads_scanned
                 Extractor.loop_init 0 three_pages in
  (Extractor.ocr_pages final ≤ 50)%nat
  ∧ 0%nat ∈ Extractor.ocr_calls final
  ∧ Extractor.all_text final !! 0%nat
    = Some (Extractor.page_block 0 (Extractor.lit "scanned text"))
  ∧ Extractor.ocr_pages
      (Extractor.page_loop extractor_with_ocr reads_scanned
         Extractor.loop_init 0 (take 1 three_pages)) = 1%nat.
Proof.
  destruct (ocr_policy extractor_with_ocr reads_scanned three_pages) as [Hbound Hpage].
  destruct (Hpage 0%nat [] eq_refl) as (Hcall & Htext & Hcount).
  assert (Hin : 0%nat ∈ Extractor.ocr_calls
                  (Extractor.page_loop extractor_with_ocr reads_scanned
                     Extractor.loop_init 0 three_pages)).
  { apply Hcall. simpl. unfold Extractor.MAX_OCR_PAGES. repeat split; lia. }
  split; [exact Hbound|]. split; [exact Hin|].
  rewrite bool_decide_eq_true_2 in Htext, Hcount by exact Hin.
  split; [exact Htext|exact Hcount].
Defined.

(** C7, as the specification words it, fails: the method of an extraction
    without OCR is ["pymupdf"], not ["pdf-native"]. *)
Lemma extract_method_not_pdf_native :
  ¬ (∀ self pdf_path output_path env w w' page_count char_count ocr_pages method,
       Extractor.extract self pdf_path output_path env w
       = (w', Ok (page_count, char_count, ocr_pages, method)) →
       (ocr_pages = 0%nat → method = "pdf-native")
       ∧ (ocr_pages ≠ 0%nat → method = "pdf-native+ocr")).
Proof.
  intros H.
  destruct (H extractor_without_ocr "data/doj/a.pdf" "data/extracted_text/doj/a.txt"
              blank_page_pdf world0 _ _ _ _ _ eq_refl) as [H0 _].
  specialize (H0 eq_refl). discriminate H0.
Qed.

(** C7, amended. Whenever [extract] returns, the method it returns is
    ["pymupdf"] when [ocr_pages] is 0 and ["pymupdf+ocr"] otherwise, that
    is when the OCR text of at least one page was adopted; and it returns
    whenever the PDF opens and the output file can be written. *)
Theorem extract_method_string
    (self : Extractor.TextExtractor) (pdf_path output_path : string)
    (env : Extractor.extract_env) (w : World) (pages : list str) :
  Extractor.opened env = Ok pages →
  Extractor.output_error env = None →
  ∃ w' char_count ocr_pages method,
    Extractor.extract self pdf_path output_path env w
    = (w', Ok (length pages, char_count, ocr_pages, method))
    ∧ ocr_pages
      = Extractor.ocr_pages
          (Extractor.page_loop self (Extractor.ocr_stdout env) Extractor.loop_init 0 pages)
    ∧ method = if bool_decide (ocr_pages = 0%nat) then "pymupdf" else "pymupdf+ocr".
Proof.
  intros Ho He. unfold Extractor.extract. rewrite Ho, He.
  eexists _, _, _, _. split; [reflexivity|]. split; [reflexivity|].
  apply (page_loop_method self (Extractor.ocr_stdout env)). reflexivity.
Qed.

Lemma extract_method_string_witness :
  ∃ w' char_count ocr_pages method,
    Extractor.extract extractor_without_ocr "data/doj/a.pdf"
      "data/extracted_text/doj/a.txt" blank_page_pdf world0
    = (w', Ok (1%nat, char_count, ocr_pages, method))
    ∧ ocr_pages
      = Extractor.ocr_pages
          (Extractor.page_loop extractor_without_ocr (λ _, None)
             Extractor.loop_init 0 [[]])
    ∧ method = if bool_decide (ocr_pages = 0%nat) then "pymupdf" else "pymupdf+ocr".
Proof.
  apply (extract_method_string extractor_without_ocr "data/doj/a.pdf"
           "data/extracted_text/doj/a.txt" blank_page_pdf world0 [[]]);
    reflexivity.
Defined.

Lemma wants_ocr_without_tools self text st :
  Extractor.can_ocr self = false → Extractor.wants_ocr self text st = false.
Proof.
  intros Hc. unfold Extractor.wants_ocr. rewrite Hc.
  by rewrite andb_false_r.
Qed.

Lemma page_loop_without_ocr self ocr st n pages :
  Extractor.can_ocr self = false →
  (∀ raw, raw ∈ pages → Extractor.strip raw = []) →
  Extractor.page_loop self ocr st n pages
  = {| Extractor.all_text :=
         Extractor.all_text st
         ++ ((λ i, Extractor.page_block i []) <$> seq n (length pages));
       Extractor.ocr_pages := Extractor.ocr_pages st;
       Extractor.method := Extractor.method st;
       Extractor.ocr_calls := Extractor.ocr_calls st |}.
Proof.
  intros Hc. revert st n.
  induction pages as [|raw pages IH]; intros st n Hblank; simpl.
  - rewrite app_nil_r. by destruct st.
  - rewrite IH by (intros r Hr; apply Hblank, elem_of_cons; by right).
    unfold Extractor.page_step.
    rewrite wants_ocr_without_tools by done. simpl.
    rewrite (Hblank raw) by (apply elem_of_cons; by left).
    by rewrite <- app_assoc.
Qed.

Lemma join_nonempty (sep p : str) (rest : list str) :
  (length p ≤ length (Extractor.join sep (p :: rest)))%nat.
Proof.
  destruct rest; simpl; [done|]. rewrite length_app. lia.
Qed.

Lemma markers_only_empty n : markers_only n = [] ↔ n = 0%nat.
Proof.
  split; [|by intros ->].
  destruct n as [|n]; [done|]. intros Hm.
  pose proof (join_nonempty [10%N; 10%N] (Extractor.page_block 0 [])
                ((λ i, Extractor.page_block i []) <$> seq 1 n)) as Hl.
  unfold markers_only in Hm.
  change (seq 0 (S n)) with (0%nat :: seq 1 n) in Hm.
  rewrite fmap_cons in Hm. rewrite Hm in Hl.
  vm_compute in Hl. lia.
Qed.

(** C8, as the specification words it, fails: for a PDF of one page without
    text, extracted without OCR, the row inserted has [char_count] 15, the
    length of the page marker, and method ["pymupdf"]. *)
Lemma blank_pdf_char_count_not_zero :
  ¬ (∀ self doc_id pdf_path env w pages,
       Extractor.opened env = Ok pages →
       (∀ raw, raw ∈ pages → Extractor.strip raw = []) →
       Extractor.can_ocr (BaseSource.extractor self) = false →
       Extractor.output_error env = None →
       ∃ row, last (Db.text_extractions
                      (db (BaseSource._extract_text self doc_id pdf_path env w)))
              = Some row
         ∧ Extraction.status row = "completed"
         ∧ Extraction.char_count row = 0
         ∧ Extraction.method row = "pdf-native").
Proof.
  intros H.
  destruct (H {| BaseSource.name := "doj";
                 BaseSource.config := Config.default_app;
                 BaseSource.extractor := extractor_without_ocr |}
              1 "data/doj/a.pdf" blank_page_pdf world0 [[]] eq_refl)
    as (row & Hrow & _ & Hc & _); [|done..|].
  - intros raw ->%list_elem_of_singleton. done.
  - vm_compute in Hrow. injection Hrow as <-. discriminate Hc.
Qed.

(** C8, amended. For every PDF whose pages each yield no text, extracted
    with OCR unavailable, the extraction completes when the PDF opens and the
    output file can be written: one row is appended to [text_extractions],
    with status ["completed"], method ["pymupdf"], [ocr_pages] 0, the number
    of pages, and as [char_count] the length of the page markers and of the
    blank lines between them, which is 0 only for a PDF without pages. *)
Theorem blank_pdf_extraction_completes
    (self : BaseSource.BaseSource) (doc_id : Z) (pdf_path : string)
    (env : Extractor.extract_env) (w : World) (pages : list str) :
  Extractor.opened env = Ok pages →
  (∀ raw, raw ∈ pages → Extractor.strip raw = []) →
  Extractor.can_ocr (BaseSource.extractor self) = false →
  Extractor.output_error env = None →
  ∃ row,
    Db.text_extractions (db (BaseSource._extract_text self doc_id pdf_path env w))
    = Db.text_extractions (db w) ++ [row]
    ∧ Extraction.document_id row = doc_id
    ∧ Extraction.status row = "completed"
    ∧ Extraction.error row = None
    ∧ Extraction.method row = "pymupdf"
    ∧ Extraction.ocr_pages row = 0
    ∧ Extraction.page_count row = Z.of_nat (length pages)
    ∧ Extraction.char_count row = Z.of_nat (length (markers_only (length pages)))
    ∧ (Extraction.char_count row = 0 ↔ pages = []).
Proof.
  intros Ho Hblank Hc He.
  unfold BaseSource._extract_text, Extractor.extract.
  rewrite Ho, He, page_loop_without_ocr by done. simpl.
  eexists. split; [reflexivity|]. simpl.
  fold (markers_only (length pages)).
  repeat split; try reflexivity.
  - intros Hz. apply length_zero_iff_nil. 
    apply markers_only_empty, length_zero_iff_nil. lia.
  - intros ->. reflexivity.
Qed.

Lemma blank_pdf_extraction_completes_witness :
  ∃ row,
    Db.text_extractions
      (db (BaseSource._extract_text
             {| BaseSource.name := "doj";
                BaseSource.config := Config.default_app;
                BaseSource.extractor := extractor_without_ocr |}
             1 "data/doj/a.pdf" blank_page_pdf world0))
    = [row]
    ∧ Extraction.status row = "completed"
    ∧ Extraction.method row = "pymupdf"
    ∧ Extraction.ocr_pages row = 0
    ∧ Extraction.page_count row = 1
    ∧ Extraction.char_count row = 15.
Proof.
  destruct (blank_pdf_extraction_completes
              {| BaseSource.name := "doj";
                 BaseSource.config := Config.default_app;
                 BaseSource.extractor := extractor_without_ocr |}
              1 "data/doj/a.pdf" blank_page_pdf world0 [[]] eq_refl)
    as (row & Hrows & _ & Hs & _ & Hm & Ho & Hp & Hc & _).
  - intros raw Hraw. apply list_elem_of_singleton in Hraw. by subst raw.
  - reflexivity.
  - reflexivity.
  - exists row. repeat split; assumption.
Defined.

(** ** Rate limiting *)

Section RateLimitFacts.

Implicit Types (w : World) (s : string).

Lemma rate_limit_clock s rate late w :
  clock (Downloader.rate_limit s rate late w)
  = Z.max (clock w) (default 0 (last_request_time w !! s) + rate) + Z.of_N late.
Proof.
  unfold Downloader.rate_limit. simpl.
  case_bool_decide; simpl; lia.
Qed.

Lemma rate_limit_last s rate late w s' :
  last_request_time (Downloader.rate_limit s rate late w) !! s'
  = if bool_decide (s = s')
    then Some (clock (Downloader.rate_limit s rate late w))
    else last_request_time w !! s'.
Proof.
  destruct (decide (s = s')) as [<-|Hs].
  - rewrite bool_decide_eq_true_2 by done.
    unfold Downloader.rate_limit. simpl. by rewrite lookup_insert_eq.
  - rewrite bool_decide_eq_false_2 by done.
    unfold Downloader.rate_limit. simpl. rewrite lookup_insert_ne by done.
    by case_bool_decide.
Qed.

Lemma rate_limit_db s rate late w :
  db (Downloader.rate_limit s rate late w) = db w.
Proof. unfold Downloader.rate_limit. simpl. by case_bool_decide. Qed.

Lemma rate_limit_fs s rate late w :
  fs (Downloader.rate_limit s rate late w) = fs w.
Proof. unfold Downloader.rate_limit. simpl. by case_bool_decide. Qed.

Lemma act_clock w a : clock w ≤ clock (act w a).
Proof.
  destruct a as [d|s rate late]; unfold act; [simpl; lia|].
  rewrite rate_limit_clock. lia.
Qed.

Lemma act_recorded_in_past s w a :
  recorded_in_past s w → recorded_in_past s (act w a).
Proof.
  intros Hw t. destruct a as [d|s0 rate late]; unfold act.
  - simpl. intros Ht%Hw. lia.
  - rewrite rate_limit_last. case_bool_decide.
    + by intros [= <-].
    + intros Ht%Hw. rewrite rate_limit_clock. lia.
Qed.

Lemma acts_clock w l : clock w ≤ clock (acts w l).
Proof.
  revert w. induction l as [|a l IH]; intros w; simpl; [done|].
  etrans; [apply (act_clock w a)|apply IH].
Qed.

(** A recorded time only moves forward. *)
Lemma acts_last w l s t :
  recorded_in_past s w →
  last_request_time w !! s = Some t →
  ∃ t', last_request_time (acts w l) !! s = Some t' ∧ t ≤ t'.
Proof.
  revert w t. induction l as [|a l IH]; intros w t Hw Ht; simpl.
  - by exists t.
  - assert (∃ t1, last_request_time (act w a) !! s = Some t1 ∧ t ≤ t1)
      as (t1 & Ht1 & Hle).
    { destruct a as [d|s0 rate late]; unfold act; [by exists t|].
      rewrite rate_limit_last. case_bool_decide.
      - eexists; split; [done|]. rewrite rate_limit_clock.
        apply Hw in Ht. lia.
      - by exists t. }
    destruct (IH (act w a) t1 (act_recorded_in_past s w a Hw) Ht1) as (t' & Ht' & Hle').
    exists t'. split; [done|lia].
Qed.

End RateLimitFacts.



(** ** Downloads *)

Section DownloadFacts.

Implicit Types (w : World) (t : list event).

Lemma requests_app t1 t2 : requests (t1 ++ t2) = (requests t1 + requests t2)%nat.
Proof.
  induction t1 as [|e t1 IH]; simpl; [done|].
  destruct e; simpl; lia.
Qed.

Lemma retry_waits_app t1 t2 :
  retry_waits (t1 ++ t2) = retry_waits t1 ++ retry_waits t2.
Proof.
  induction t1 as [|e t1 IH]; simpl; [done|].
  destruct e; simpl; by rewrite ?IH.
Qed.

Lemma rate_limit_trace s rate late w :
  ∃ pre, trace (Downloader.rate_limit s rate late w) = trace w ++ pre
         ∧ requests pre = 0%nat ∧ retry_waits pre = [].
Proof.
  unfold Downloader.rate_limit. simpl. case_bool_decide; simpl.
  - by eexists [_].
  - exists []. by rewrite app_nil_r.
Qed.

Lemma stream_body_frame max lp body hashed size w :
  let w' := (Downloader.stream_body max lp body hashed size w).1 in
  db w' = db w ∧ trace w' = trace w ∧ clock w' = clock w
  ∧ last_request_time w' = last_request_time w.
Proof.
  revert hashed size w. induction body as [|ev body IH]; intros hashed size w; simpl.
  - done.
  - destruct ev as [chunk|msg|msg]; simpl; [|done..].
    case_bool_decide; simpl; [done|].
    match goal with |- context [Downloader.stream_body _ _ _ ?h ?s ?w1] =>
      destruct (IH h s w1) as (-> & -> & -> & ->) end.
    done.
Qed.

Lemma stream_body_result max lp body hashed size w1 w2 :
  (Downloader.stream_body max lp body hashed size w1).2
  = (Downloader.stream_body max lp body hashed size w2).2.
Proof.
  revert hashed size w1 w2.
  induction body as [|ev body IH]; intros hashed size w1 w2; simpl; [done|].
  destruct ev as [chunk|msg|msg]; simpl; [|done..].
  case_bool_decide; simpl; [done|]. apply IH.
Qed.

Lemma stream_download_frame sha cfg url lp x w :
  let w' := (Downloader._stream_download sha cfg url lp x w).1 in
  db w' = db w ∧ trace w' = trace w ++ [EvRequest url] ∧ clock w' = clock w
  ∧ last_request_time w' = last_request_time w.
Proof.
  unfold Downloader._stream_download.
  destruct x as [msg|status ct cl oe body]; simpl; [done|].
  destruct status; simpl; [done|].
  destruct (_ && _); simpl; [done|].
  destruct cl as [n|]; [case_bool_decide|]; simpl; try done.
  all: case_bool_decide; simpl; [done|].
  all: destruct oe; simpl; [done|].
  all: match goal with |- context [Downloader.stream_body ?m ?l ?b ?h ?s ?w1] =>
         pose proof (stream_body_frame m l b h s w1) as Hf;
         destruct (Downloader.stream_body m l b h s w1) as [w2 [[hashed size]|e]]
       end; simpl in *; destruct Hf as (-> & -> & -> & ->); done.
Qed.

Lemma stream_download_outcome sha cfg url lp x w :
  (Downloader._stream_download sha cfg url lp x w).2 = outcome sha cfg url lp x.
Proof.
  unfold outcome, Downloader._stream_download.
  destruct x as [msg|status ct cl oe body]; simpl; [done|].
  destruct status; simpl; [done|].
  destruct (_ && _); simpl; [done|].
  destruct cl as [n|]; [case_bool_decide|]; simpl; try done.
  all: case_bool_decide; simpl; [done|].
  all: destruct oe; simpl; [done|].
  all: match goal with
       |- (let (_, _) := Downloader.stream_body ?m ?l ?b ?h ?s ?w1 in _).2
          = (let (_, _) := Downloader.stream_body _ _ _ _ _ ?w2 in _).2 =>
         pose proof (stream_body_result m l b h s w1 w2) as Hr;
         destruct (Downloader.stream_body m l b h s w1) as [wa [[ha sa]|ea]];
         destruct (Downloader.stream_body m l b h s w2) as [wb [[hb sb]|eb]]
       end; simpl in *; congruence.
Qed.


End DownloadFacts.



(** ** The adapter loop *)

Section LoopFacts.

Implicit Types (w : World) (d : Db.Database).

Lemma stream_body_file max lp body hashed size w :
  is_Some (fs w !! lp) →
  is_Some (fs (Downloader.stream_body max lp body hashed size w).1 !! lp).
Proof.
  revert hashed size w. induction body as [|ev body IH]; intros hashed size w Hf; simpl.
  - done.
  - destruct ev as [chunk|msg|msg]; simpl; [|done..].
    case_bool_decide; simpl.
    + rewrite lookup_insert_eq. by eexists.
    + apply IH. simpl. rewrite lookup_insert_eq. by eexists.
Qed.

(** A download that returns has written its file, at a path that is not
    empty. *)
Lemma stream_download_ok sha cfg url lp x w w' p h z :
  Downloader._stream_download sha cfg url lp x w = (w', Ok (p, h, z)) →
  p = lp ∧ lp ≠ "" ∧ is_Some (fs w' !! lp).
Proof.
  unfold Downloader._stream_download.
  destruct x as [msg|status ct cl oe body]; [done|].
  destruct status; [done|].
  destruct (_ && _); [done|].
  destruct cl as [n|]; [case_bool_decide|]; try done.
  all: case_bool_decide as Hlp; [done|].
  all: destruct oe; [done|].
  all: match goal with |- context [Downloader.stream_body ?m ?l ?b ?hh ?s ?w1] =>
         pose proof (stream_body_file m l b hh s w1) as Hf;
         destruct (Downloader.stream_body m l b hh s w1) as [w2 [[hashed size]|e]]
       end; [|done].
  all: intros [= <- <- <- <-]; split; [done|]; split; [done|].
  all: apply Hf; simpl; rewrite lookup_insert_eq; by eexists.
Qed.

Lemma attempts_loop_db sha cfg url lp source rate env attempts last w :
  db (Downloader.attempts_loop sha cfg url lp source rate env attempts last w).1
  = db w.
Proof.
  revert last w. induction attempts as [|a attempts IH]; intros last w; simpl.
  - by destruct last.
  - pose proof (rate_limit_db source rate (Downloader.rate_late (env a)) w) as H1.
    remember (Downloader.rate_limit source rate (Downloader.rate_late (env a)) w) as w1.
    pose proof (stream_download_frame sha cfg url lp (Downloader.answer (env a)) w1)
      as (H2 & _).
    destruct (Downloader._stream_download sha cfg url lp (Downloader.answer (env a)) w1)
      as [w2 [v|e]]; simpl in *; [congruence|].
    destruct (Downloader.retryable e); simpl; [|congruence].
    case_bool_decide; simpl; [congruence|].
    rewrite IH. simpl. congruence.
Qed.

Lemma attempts_loop_ok sha cfg url lp source rate env attempts last w w' p h z :
  Downloader.attempts_loop sha cfg url lp source rate env attempts last w
  = (w', Ok (p, h, z)) →
  p = lp ∧ lp ≠ "" ∧ is_Some (fs w' !! lp).
Proof.
  revert last w. induction attempts as [|a attempts IH]; intros last w; simpl.
  - by destruct last.
  - remember (Downloader.rate_limit source rate (Downloader.rate_late (env a)) w) as w1.
    destruct (Downloader._stream_download sha cfg url lp (Downloader.answer (env a)) w1)
      as [w2 [v|e]] eqn:Hs.
    + intros [= <- Hv]. subst v. simpl.
      eapply stream_download_ok. exact Hs.
    + destruct (Downloader.retryable e); [|done].
      case_bool_decide; [done|]. apply IH.
Qed.

Lemma download_file_db sha cfg url dest_dir filename source doc_id sc env w :
  db (Downloader.download_file sha cfg url dest_dir filename source doc_id sc env w).1
  = db w.
Proof. apply attempts_loop_db. Qed.

Lemma download_file_ok sha cfg url dest_dir filename source doc_id sc env w w' p h z :
  Downloader.download_file sha cfg url dest_dir filename source doc_id sc env w
  = (w', Ok (p, h, z)) →
  p = Py.os_path_join dest_dir filename ∧ p ≠ "" ∧ is_Some (fs w' !! p).
Proof.
  intros H. apply attempts_loop_ok in H as (-> & ? & ?). done.
Qed.

(** Extraction leaves table [documents] and its counter alone. *)
Lemma extract_text_documents self doc_id pdf_path env w :
  let w' := BaseSource._extract_text self doc_id pdf_path env w in
  Db.documents (db w') = Db.documents (db w)
  ∧ Db.documents_seq (db w') = Db.documents_seq (db w).
Proof.
  unfold BaseSource._extract_text, Extractor.extract.
  destruct (Extractor.opened env); simpl; [|done].
  destruct (Extractor.output_error env); simpl; done.
Qed.

(** What one iteration of the loop of [run] does to table [documents]:
    nothing when the url is known; otherwise [insert_document], and then,
    unless that raised, one [update_download] of the id it returned, which
    either stores a status other than ["downloaded"], or stores
    ["downloaded"] with a path that is not empty, a hash and a size, the
    hash being one for which [sha256_exists] found no path. *)
Lemma run_item_catalog sha urlparse self c url m env w :
  let d := db w in
  let d' := db (BaseSource.run_item sha urlparse self c url m env w).1.1 in
  (Db.url_exists d url = true ∧ d' = d)
  ∨ (Db.url_exists d url = false
     ∧ ∃ src sid fname ttl meta d1 res,
         Db.insert_document d (clock w) url src sid fname ttl meta = (d1, res)
         ∧ Db.documents_seq d' = Db.documents_seq d1
         ∧ (Db.documents d' = Db.documents d1
            ∨ ∃ doc_id now st lp h size err,
                res = Ok doc_id
                ∧ Db.documents d'
                  = Db.documents (Db.update_download d1 now doc_id st lp h size err)
                ∧ (st ≠ "downloaded"
                   ∨ (st = "downloaded"
                      ∧ ∃ p hh z, lp = Some p ∧ p ≠ "" ∧ h = Some hh ∧ size = Some z
                          ∧ Py.truthy (Db.sha256_exists d1 hh) = false)))).
Proof.
  intros d d'. subst d d'. unfold BaseSource.run_item.
  destruct (Db.url_exists (db w) url) eqn:Hu; [by left|]. right.
  split; [done|].
  match goal with |- context [Db.insert_document ?a ?b ?c ?d ?e ?f ?g ?h] =>
    exists d, e, f, g, h;
    destruct (Db.insert_document a b c d e f g h) as [d1 [doc_id|e0]] eqn:Hins
  end; exists d1; eexists; (split; [reflexivity|]); [|by split; [|left]].
  match goal with |- context [Downloader.download_file ?a ?b ?c ?d ?e ?f ?g ?h ?i ?j] =>
    pose proof (download_file_db a b c d e f g h i j) as Hdb;
    pose proof (download_file_ok a b c d e f g h i j) as Hok;
    destruct (Downloader.download_file a b c d e f g h i j) as [w2 [[[p hh] z]|e0]]
  end; simpl in Hdb.
  - destruct (Hok w2 p hh z eq_refl) as (_ & Hp & Hfile).
    destruct (Py.truthy (Db.sha256_exists (db w2) hh)) eqn:Hex.
    + destruct (fs w2 !! p); simpl; rewrite Hdb.
      * split; [done|]. right. eexists _, _, _, _, _, _, _.
        split; [done|]. split; [done|]. by left.
      * split; [done|]. right. eexists _, _, _, _, _, _, _.
        split; [done|]. split; [done|]. by left.
    + rewrite Hdb in Hex.
      destruct (_ && _).
      * match goal with |- context [BaseSource._extract_text ?a ?b ?c ?d ?w3] =>
          destruct (extract_text_documents a b c d w3) as [Hd Hs]
        end.
        cbn [fst]. rewrite Hs, Hd. simpl. rewrite Hdb.
        split; [done|]. right. eexists _, _, _, _, _, _, _.
        split; [done|]. split; [done|]. right. split; [done|].
        by eexists _, _, _.
      * simpl. rewrite Hdb.
        split; [done|]. right. eexists _, _, _, _, _, _, _.
        split; [done|]. split; [done|]. right. split; [done|].
        by eexists _, _, _.
  - simpl. rewrite Hdb. split; [done|]. right. eexists _, _, _, _, _, _, _.
    split; [done|]. split; [done|]. by left.
Qed.

End LoopFacts.

(** ** Downloaded rows are complete *)

Section CompleteFacts.

Implicit Types (d : Db.Database) (docs : list Document.row).








End CompleteFacts.




(** ** Content deduplication *)

Section DedupFacts.

Implicit Types (d : Db.Database) (docs : list Document.row) (r : Document.row).

Lemma catalog_ok_empty : catalog_ok Db.empty.
Proof.
  split; [split; [done|]|split].
  - intros r Hr. by apply elem_of_nil in Hr.
  - intros r h Hr. by apply elem_of_nil in Hr.
  - intros i j r1 r2 h Hi. simpl in Hi. by rewrite lookup_nil in Hi.
Qed.

(** One more row, under the next id, keeps the catalog in order when the
    row, if it is [downloaded] with a hash, has a path and a hash that no
    [downloaded] row has. *)
Lemma catalog_ok_snoc d d' r :
  catalog_ok d →
  Db.documents d' = Db.documents d ++ [r] →
  Db.documents_seq d' = Db.documents_seq d + 1 →
  Document.id r = Db.documents_seq d + 1 →
  (∀ h, Document.download_status r = "downloaded" → Document.sha256 r = Some h →
     Py.truthy (Document.local_path r) = true
     ∧ ∀ r', r' ∈ Db.documents d → Document.download_status r' = "downloaded" →
         Document.sha256 r' ≠ Some h) →
  catalog_ok d'.
Proof.
  intros ((Hs & Hids) & Hloc & Hdup) Hdocs Hseq Hid Hnew.
  split; [split|split].
  - lia.
  - rewrite Hdocs, Hseq. intros r' [Hr'|Hr']%elem_of_app.
    + apply Hids in Hr'. lia.
    + apply list_elem_of_singleton in Hr' as ->. lia.
  - rewrite Hdocs. intros r' h [Hr'|Hr']%elem_of_app Hst Hsha.
    + by apply (Hloc r' h).
    + apply list_elem_of_singleton in Hr' as ->. by apply (Hnew h).
  - rewrite Hdocs. intros i j r1 r2 h Hi Hj Hs1 Hs2 Hh1 Hh2.
    apply lookup_snoc_Some in Hi as [[Hi1 Hi]|[Hi ->]];
      apply lookup_snoc_Some in Hj as [[Hj1 Hj]|[Hj ->]].
    + by apply (Hdup i j r1 r2 h).
    + destruct (Hnew h Hs2 Hh2) as [_ Hfresh].
      destruct (Hfresh r1 (list_elem_of_lookup_2 _ _ _ Hi) Hs1 Hh1).
    + destruct (Hnew h Hs1 Hh1) as [_ Hfresh].
      destruct (Hfresh r2 (list_elem_of_lookup_2 _ _ _ Hj) Hs2 Hh2).
    + congruence.
Qed.

(** [update_download] of the id of the last row, all other ids being
    smaller, changes the last row only. *)
Lemma update_download_last d d1 r0 now st lp sha size err :
  ids_ok d →
  Db.documents d1 = Db.documents d ++ [r0] →
  Document.id r0 = Db.documents_seq d + 1 →
  Db.documents (Db.update_download d1 now (Db.documents_seq d + 1) st lp sha size err)
  = Db.documents d ++ [Db.set_download now st lp sha size err r0].
Proof.
  intros [_ Hids] Hdocs Hid. simpl. rewrite Hdocs, map_app. simpl.
  rewrite bool_decide_eq_true_2 by done. f_equal.
  rewrite <- (map_id (Db.documents d)) at 2.
  apply map_ext_in. intros r Hr%list_elem_of_In%Hids.
  rewrite bool_decide_eq_false_2; [done|lia].
Qed.

(** When [sha256_exists] finds no path, no [downloaded] row has the hash. *)
Lemma sha256_exists_none d h :
  content_located (Db.documents d) →
  Py.truthy (Db.sha256_exists d h) = false →
  ∀ r, r ∈ Db.documents d → Document.download_status r = "downloaded" →
    Document.sha256 r ≠ Some h.
Proof.
  intros Hloc Hex r Hr Hst Hsha. unfold Db.sha256_exists in Hex.
  destruct (List.find (Db.downloaded_with h) (Db.documents d)) as [r'|] eqn:Hf.
  - apply find_some in Hf as [Hin Hm]. unfold Db.downloaded_with in Hm.
    apply andb_true_iff in Hm as [H1%bool_decide_eq_true H2%bool_decide_eq_true].
    apply list_elem_of_In in Hin. rewrite (Hloc r' h Hin H2 H1) in Hex. done.
  - apply list_elem_of_In in Hr. pose proof (find_none _ _ Hf r Hr) as Hn.
    unfold Db.downloaded_with in Hn.
    rewrite !bool_decide_eq_true_2 in Hn by done. done.
Qed.

(** When a [downloaded] row has the hash, [sha256_exists] returns its path. *)
Lemma sha256_exists_found d h r :
  no_duplicate_content (Db.documents d) →
  r ∈ Db.documents d → Document.download_status r = "downloaded" →
  Document.sha256 r = Some h →
  Db.sha256_exists d h = Document.local_path r.
Proof.
  intros Hdup Hr Hst Hsha. unfold Db.sha256_exists.
  destruct (List.find (Db.downloaded_with h) (Db.documents d)) as [r'|] eqn:Hf.
  - apply find_some in Hf as [Hin Hm]. unfold Db.downloaded_with in Hm.
    apply andb_true_iff in Hm as [H1%bool_decide_eq_true H2%bool_decide_eq_true].
    apply list_elem_of_In, list_elem_of_lookup in Hin as [i Hi].
    apply list_elem_of_lookup in Hr as [j Hj].
    assert (i = j) as -> by (by apply (Hdup i j r' r h)).
    congruence.
  - apply list_elem_of_In in Hr. pose proof (find_none _ _ Hf r Hr) as Hn.
    unfold Db.downloaded_with in Hn.
    rewrite !bool_decide_eq_true_2 in Hn by done. done.
Qed.

(** The row a new url gets. *)
Lemma insert_document_fresh d now u src sid fname ttl metadata :
  ids_ok d → Db.url_exists d u = false →
  ∃ d1 r0,
    Db.insert_document d now u src sid fname ttl metadata
    = (d1, Ok (Db.documents_seq d + 1))
    ∧ Db.documents d1 = Db.documents d ++ [r0]
    ∧ Db.documents_seq d1 = Db.documents_seq d + 1
    ∧ Document.id r0 = Db.documents_seq d + 1
    ∧ Document.url r0 = u
    ∧ Document.download_status r0 = "pending"
    ∧ Document.sha256 r0 = None.
Proof.
  intros [Hs _] Hu.
  pose proof (insert_document_documents d now u src sid fname ttl metadata) as Hi.
  pose proof (insert_document_new d now u src sid fname ttl metadata Hu Hs) as Hn.
  destruct (Db.insert_document d now u src sid fname ttl metadata) as [d1 res].
  simpl in Hi, Hn. rewrite Hu in Hi. subst res.
  destruct Hi as (r0 & H1 & H2 & H3 & H4 & _ & H5 & _ & H6 & _).
  by exists d1, r0.
Qed.

Lemma catalog_ok_ext d d' :
  Db.documents d' = Db.documents d → Db.documents_seq d' = Db.documents_seq d →
  catalog_ok d → catalog_ok d'.
Proof.
  unfold catalog_ok, ids_ok. by intros -> ->.
Qed.

Lemma run_item_catalog_ok sha urlparse self c url m env w :
  catalog_ok (db w) →
  catalog_ok (db (BaseSource.run_item sha urlparse self c url m env w).1.1).
Proof.
  intros Hok.
  destruct (run_item_catalog sha urlparse self c url m env w)
    as [[_ ->]|(Hu & src & sid & fname & ttl & meta & d1 & res & Hins & Hseq & Hdocs)];
    [done|].
  pose proof Hok as (Hids & Hloc & Hdup).
  destruct (insert_document_fresh (db w) (clock w) url src sid fname ttl meta Hids Hu)
    as (d1' & r0 & Hins' & Hd1 & Hs1 & Hid & _ & Hpend & Hsha0).
  rewrite Hins in Hins'. injection Hins' as <- ->.
  assert (Hok1 : catalog_ok d1).
  { apply (catalog_ok_snoc (db w) d1 r0); try done.
    intros h Hst. rewrite Hpend in Hst. done. }
  destruct Hdocs as [Hsame|(doc_id & now & st & lp & h & size & err & [= <-] & Hupd & Hst)].
  { by apply (catalog_ok_ext d1). }
  rewrite (update_download_last (db w) d1 r0) in Hupd by done.
  apply (catalog_ok_snoc (db w) _ _ Hok Hupd); [lia|done|].
  simpl. intros h' Hst' Hsha'.
  destruct Hst as [Hne|(_ & p & hh & z & -> & Hp & -> & -> & Hex)]; [done|].
  injection Hsha' as <-. split.
  - simpl. by rewrite bool_decide_eq_false_2.
  - intros r' Hr' Hst'' Hsha''.
    destruct Hok1 as (_ & Hloc1 & _).
    apply (sha256_exists_none d1 hh Hloc1 Hex r'); [|done..].
    rewrite Hd1. apply elem_of_app. by left.
Qed.

Lemma run_loop_catalog_ok sha urlparse self items env i c w :
  catalog_ok (db w) →
  catalog_ok (db (BaseSource.run_loop sha urlparse self items env i c w).1.1).
Proof.
  revert i c w. induction items as [|[url m] items IH]; intros i c w Hok; simpl.
  - done.
  - pose proof (run_item_catalog_ok sha urlparse self c url m (env i) w Hok) as H1.
    destruct (BaseSource.run_item sha urlparse self c url m (env i) w)
      as [[w1 c1] [e|]]; simpl in *; [done|].
    by apply IH.
Qed.

(** The body of the loop, for a new url, once the download has ended. *)
Lemma run_item_new sha urlparse self c url m env w :
  ids_ok (db w) → Db.url_exists (db w) url = false →
  BaseSource.run_item sha urlparse self c url m env w
  = let doc_id := Db.documents_seq (db w) + 1 in
    let c := BaseSource.count_discovered c in
    match item_download sha urlparse self url m env w with
    | (w2, Ok (local_path, sha256, file_size)) =>
        let existing := Db.sha256_exists (db w2) sha256 in
        if Py.truthy existing then
          match fs w2 !! local_path with
          | Some _ =>
              let w3 := set_fs (delete local_path (fs w2)) w2 in
              (set_db (Db.update_download (db w3) (clock w3) doc_id "skipped"
                         None None None
                         (Some ("duplicate of " +:+ default "" existing))) w3,
               BaseSource.count_skipped c, None)
          | None =>
              (set_db (Db.update_download (db w2) (clock w2) doc_id "failed"
                         None None None
                         (Some ("[Errno 2] No such file or directory: '"
                                  +:+ local_path +:+ "'"))) w2,
               BaseSource.count_failed c, None)
          end
        else
          let w3 := set_db (Db.update_download (db w2) (clock w2) doc_id
                              "downloaded" (Some local_path) (Some sha256)
                              (Some file_size) None) w2 in
          let c := BaseSource.count_downloaded c in
          if Config.extraction_enabled (Config.extraction (BaseSource.config self))
             && Py.endswith ".pdf" (Py.lower local_path)
          then (BaseSource._extract_text self doc_id local_path
                  (BaseSource.extraction env) w3, c, None)
          else (w3, c, None)
    | (w2, Raise e) =>
        (set_db (Db.update_download (db w2) (clock w2) doc_id "failed"
                   None None None (Some (str_of_exn e))) w2,
         BaseSource.count_failed c, None)
    end.
Proof.
  intros Hids Hu. unfold BaseSource.run_item, item_download. rewrite Hu.
  cbv zeta.
  match goal with |- context [Db.insert_document ?a ?b ?c ?d ?e ?f ?g ?h] =>
    destruct (insert_document_fresh a b c d e f g h Hids Hu)
      as (d1 & r0 & Hins & _)
  end.
  rewrite Hins. reflexivity.
Qed.

(** The catalog in which the download of a new url ends: the one it started
    in, with the row inserted for the url. *)
Lemma item_download_db sha urlparse self url m env w :
  ids_ok (db w) → Db.url_exists (db w) url = false →
  ∃ r0,
    Db.documents (db (item_download sha urlparse self url m env w).1)
    = Db.documents (db w) ++ [r0]
    ∧ Db.documents_seq (db (item_download sha urlparse self url m env w).1)
      = Db.documents_seq (db w) + 1
    ∧ Document.id r0 = Db.documents_seq (db w) + 1
    ∧ Document.url r0 = url
    ∧ Document.download_status r0 = "pending"
    ∧ Document.sha256 r0 = None.
Proof.
  intros Hids Hu. unfold item_download. cbv zeta.
  rewrite download_file_db. cbn [db set_db].
  match goal with |- context [Db.insert_document ?a ?b ?c ?d ?e ?f ?g ?h] =>
    destruct (insert_document_fresh a b c d e f g h Hids Hu)
      as (d1 & r0 & Hins & Hrest)
  end.
  rewrite Hins. cbn [fst]. by exists r0.
Qed.

Lemma item_download_ok sha urlparse self url m env w w2 p h z :
  item_download sha urlparse self url m env w = (w2, Ok (p, h, z)) →
  p ≠ "" ∧ is_Some (fs w2 !! p).
Proof.
  unfold item_download. cbv zeta. intros H.
  by apply download_file_ok in H as (_ & ? & ?).
Qed.

End DedupFacts.

(** C2. The default adapter loop never leaves two [downloaded] rows with
    the same hash: a catalog in which no two [downloaded] rows share a hash
    (and the ids are in order and every hashed [downloaded] row has a path,
    as in the empty catalog) is so again after [run].  In the body of the
    loop, when the hash of the file just streamed is the hash of a
    [downloaded] row, the file is removed and the row of the document
    becomes [skipped] with the error ["duplicate of "] followed by the path
    of that row, and without path, hash or size. *)
Theorem content_dedup
    (sha : list Byte.byte → string) (urlparse : string → string)
    (self : BaseSource.BaseSource) :
  catalog_ok Db.empty
  ∧ (∀ items env w,
       catalog_ok (db w) →
       catalog_ok (db (BaseSource.run sha urlparse self items env w).1.1)
       ∧ no_duplicate_content
           (Db.documents (db (BaseSource.run sha urlparse self items env w).1.1)))
  ∧ (∀ c url m env w w2 p h z r0,
       catalog_ok (db w) →
       Db.url_exists (db w) url = false →
       item_download sha urlparse self url m env w = (w2, Ok (p, h, z)) →
       r0 ∈ Db.documents (db w) →
       Document.download_status r0 = "downloaded" →
       Document.sha256 r0 = Some h →
       ∃ existing row w',
         Document.local_path r0 = Some existing
         ∧ BaseSource.run_item sha urlparse self c url m env w
           = (w', BaseSource.count_skipped (BaseSource.count_discovered c), None)
         ∧ fs w' = delete p (fs w2)
         ∧ Db.documents (db w') = Db.documents (db w) ++ [row]
         ∧ Document.url row = url
         ∧ Document.download_status row = "skipped"
         ∧ Document.error row = Some ("duplicate of " +:+ existing)
         ∧ Document.local_path row = None
         ∧ Document.sha256 row = None
         ∧ Document.file_size row = None).
Proof.
  split; [apply catalog_ok_empty|]. split.
  - intros items env w Hok.
    pose proof (run_loop_catalog_ok sha urlparse self items env 0
                  {| BaseSource.discovered := 0; BaseSource.downloaded := 0;
                     BaseSource.skipped := 0; BaseSource.failed := 0 |} w Hok) as H.
    split; [exact H|]. by destruct H as (_ & _ & ?).
  - intros c url m env w w2 p h z r0 Hok Hu Hdl Hr0 Hst Hsha.
    pose proof Hok as (Hids & Hloc & Hdup).
    destruct (item_download_db sha urlparse self url m env w Hids Hu)
      as (row0 & Hdocs & Hseq & Hid & Hurl & Hpend & Hsha0).
    destruct (item_download_ok sha urlparse self url m env w w2 p h z Hdl)
      as [Hp [f Hf]].
    rewrite Hdl in Hdocs, Hseq. cbn [fst] in Hdocs, Hseq.
    assert (Hok2 : catalog_ok (db w2)).
    { apply (catalog_ok_snoc (db w) (db w2) row0); try done.
      intros h' Hst'. rewrite Hpend in Hst'. done. }
    assert (Hex : Db.sha256_exists (db w2) h = Document.local_path r0).
    { destruct Hok2 as (_ & _ & Hdup2).
      apply sha256_exists_found; [done| |done..].
      rewrite Hdocs. apply elem_of_app. by left. }
    pose proof (Hloc r0 h Hr0 Hst Hsha) as Htruthy.
    destruct (Document.local_path r0) as [existing|] eqn:Hlp; [|done].
    rewrite run_item_new by done. cbv zeta. rewrite Hdl, Hex, Htruthy, Hf.
    eexists existing, _, _. split; [done|]. split; [reflexivity|].
    split; [done|]. cbn [db set_db set_fs].
    rewrite (update_download_last (db w) (db w2) row0) by done.
    split; [reflexivity|]. simpl. done.
Qed.

(** A second url that serves the same bytes: its row is [skipped] as a
    duplicate of the first file, and its own file is gone. *)
Lemma content_dedup_witness :
  catalog_ok (db after_first_download)
  ∧ ∃ row w' c',
      BaseSource.run_item length_digest Py.os_path_basename doj
        {| BaseSource.discovered := 1; BaseSource.downloaded := 1;
           BaseSource.skipped := 0; BaseSource.failed := 0 |}
        "https://y.org/b.pdf" no_meta (serving [Downloader.Chunk pdf_bytes])
        after_first_download
      = (w', c', None)
      ∧ fs w' !! "data/doj/b.pdf" = None
      ∧ last (Db.documents (db w')) = Some row
      ∧ Document.download_status row = "skipped"
      ∧ Document.error row = Some "duplicate of data/doj/a.pdf".
Proof.
  destruct (content_dedup length_digest Py.os_path_basename doj)
    as (Hempty & Hrun & Hitem).
  assert (Hok : catalog_ok (db after_first_download)).
  { apply (Hrun [("https://x.org/a.pdf", no_meta)]
             (λ _, serving [Downloader.Chunk pdf_bytes]) world0).
    exact Hempty. }
  split; [exact Hok|].
  destruct (Db.documents (db after_first_download) !! 0%nat) as [r0|] eqn:Hr0;
    [|discriminate Hr0].
  destruct (Hitem {| BaseSource.discovered := 1; BaseSource.downloaded := 1;
                     BaseSource.skipped := 0; BaseSource.failed := 0 |}
              "https://y.org/b.pdf" no_meta (serving [Downloader.Chunk pdf_bytes])
              after_first_download
              (item_download length_digest Py.os_path_basename doj
                 "https://y.org/b.pdf" no_meta (serving [Downloader.Chunk pdf_bytes])
                 after_first_download).1
              "data/doj/b.pdf" "4" 4 r0 Hok)
    as (existing & row & w' & Hex & Hitem' & Hfs & Hdocs & _ & Hst & Herr & _).
  - reflexivity.
  - vm_compute. reflexivity.
  - apply (list_elem_of_lookup_2 _ 0%nat). exact Hr0.
  - vm_compute in Hr0. injection Hr0 as <-. reflexivity.
  - vm_compute in Hr0. injection Hr0 as <-. reflexivity.
  - eexists row, w', _. split; [exact Hitem'|].
    split; [rewrite Hfs; apply lookup_delete_eq|].
    split; [rewrite Hdocs; apply last_snoc|].
    split; [exact Hst|].
    rewrite Herr. vm_compute in Hr0. injection Hr0 as <-.
    simpl in Hex. injection Hex as <-. reflexivity.
Defined.

(** ** Downloads over the size cap *)

Section OverCapFacts.

Implicit Types (w : World).

(** Chunks that stay within the cap are written and hashed. *)
Lemma stream_body_within max lp chunks rest hashed size written w :
  fs w !! lp = Some (Binary written) →
  size + Z.of_nat (length (concat chunks)) ≤ max →
  ∃ w1,
    Downloader.stream_body max lp ((Downloader.Chunk <$> chunks) ++ rest) hashed size w
    = Downloader.stream_body max lp rest (hashed ++ concat chunks)
        (size + Z.of_nat (length (concat chunks))) w1
    ∧ fs w1 !! lp = Some (Binary (written ++ concat chunks))
    ∧ db w1 = db w.
Proof.
  revert hashed size written w.
  induction chunks as [|c chunks IH]; intros hashed size written w Hf Hle.
  - exists w. simpl. rewrite !app_nil_r, Z.add_0_r. done.
  - simpl in Hle. rewrite length_app in Hle.
    cbn [fmap list_fmap app Downloader.stream_body]. rewrite Hf.
    rewrite bool_decide_eq_false_2 by lia.
    match goal with |- context [Downloader.stream_body _ _ _ ?h ?s ?w0] =>
      destruct (IH h s (written ++ c) w0) as (w1 & Hrun & Hf1 & Hdb1)
    end.
    { simpl. by rewrite lookup_insert_eq. }
    { lia. }
    exists w1. rewrite Hrun. simpl.
    rewrite length_app, <- !app_assoc in *.
    split; [f_equal; lia|]. split; [done|]. by rewrite Hdb1.
Qed.

(** The chunk that passes the cap is written too, and then the error is
    raised. *)
Lemma stream_body_over max lp chunks chunk rest written w :
  fs w !! lp = Some (Binary written) →
  Z.of_nat (length (concat chunks)) ≤ max →
  max < Z.of_nat (length (concat chunks ++ chunk)) →
  ∃ w',
    Downloader.stream_body max lp
      ((Downloader.Chunk <$> chunks) ++ Downloader.Chunk chunk :: rest) [] 0 w
    = (w', Raise (ValueError
                    (exceeded_message (Z.of_nat (length (concat chunks ++ chunk))))))
    ∧ fs w' !! lp = Some (Binary (written ++ concat chunks ++ chunk))
    ∧ db w' = db w.
Proof.
  intros Hf Hle Hgt.
  destruct (stream_body_within max lp chunks (Downloader.Chunk chunk :: rest)
              [] 0 written w Hf) as (w1 & -> & Hf1 & Hdb1); [lia|].
  rewrite length_app in Hgt.
  cbn [Downloader.stream_body]. rewrite Hf1.
  rewrite bool_decide_eq_true_2 by lia.
  replace (0 + Z.of_nat (length (concat chunks)) + Z.of_nat (length chunk))
    with (Z.of_nat (length (concat chunks ++ chunk)))
    by (rewrite length_app; lia).
  eexists. split; [reflexivity|]. split.
  - simpl. by rewrite lookup_insert_eq, <- app_assoc.
  - done.
Qed.

Lemma stream_download_over_cap sha cfg url lp x data w :
  over_cap cfg lp x data →
  ∃ w',
    Downloader._stream_download sha cfg url lp x w
    = (w', Raise (ValueError (exceeded_message (Z.of_nat (length data)))))
    ∧ fs w' !! lp = Some (Binary data)
    ∧ db w' = db w.
Proof.
  intros (ct & cl & chunks & chunk & rest & -> & Hct & Hcl & Hlp & -> & Hle & Hgt).
  unfold Downloader._stream_download. rewrite Hct.
  assert (Hhead : match cl with
                  | Some n =>
                      if bool_decide (n > Config.max_file_size (Config.download cfg))
                      then Some (ValueError ("File too large: " +:+ pretty n +:+ " bytes"))
                      else None
                  | None => None
                  end = None).
  { destruct cl as [n|]; [|done]. specialize (Hcl n eq_refl).
    rewrite bool_decide_eq_false_2; [done|lia]. }
  cbv zeta. rewrite Hhead. rewrite bool_decide_eq_false_2 by done.
  match goal with |- context [Downloader.stream_body ?mx _ _ _ _ ?w0] =>
    destruct (stream_body_over mx lp chunks chunk rest [] w0)
      as (w' & Hrun & Hf & Hdb); [by simpl; rewrite lookup_insert_eq|done..|]
  end.
  rewrite Hrun. exists w'. split; [done|]. split; [done|]. done.
Qed.

(** [download_file] reaches an attempt over the cap after [k] attempts that
    it retried, and raises the error of that attempt at once. *)
Lemma attempts_loop_over_cap sha cfg url lp source rate env data k :
  0 ≤ Config.backoff_factor (Config.download cfg) →
  ∀ m s last w,
    (∀ j, (j < k)%nat →
       fails_retryably (outcome sha cfg url lp (Downloader.answer (env (s + j)%nat)))) →
    over_cap cfg lp (Downloader.answer (env (s + k)%nat)) data →
    ∃ w',
      Downloader.attempts_loop sha cfg url lp source rate env (seq s (k + S m)) last w
      = (w', Raise (ValueError (exceeded_message (Z.of_nat (length data)))))
      ∧ fs w' !! lp = Some (Binary data)
      ∧ db w' = db w.
Proof.
  intros Hb. induction k as [|k IH]; intros m s last w Hfail Hover.
  - rewrite Nat.add_0_r in Hover. cbn [Nat.add seq Downloader.attempts_loop].
    pose proof (rate_limit_db source rate (Downloader.rate_late (env s)) w) as Hdb1.
    remember (Downloader.rate_limit source rate (Downloader.rate_late (env s)) w) as w1.
    destruct (stream_download_over_cap sha cfg url lp _ data w1 Hover)
      as (w2 & -> & Hf & Hdb2).
    cbn [Downloader.retryable]. eexists. split; [reflexivity|].
    split; [done|]. simpl. congruence.
  - cbn [Nat.add seq Downloader.attempts_loop].
    pose proof (rate_limit_db source rate (Downloader.rate_late (env s)) w) as Hdb1.
    remember (Downloader.rate_limit source rate (Downloader.rate_late (env s)) w) as w1.
    pose proof (stream_download_frame sha cfg url lp (Downloader.answer (env s)) w1)
      as (Hdb2 & _).
    pose proof (stream_download_outcome sha cfg url lp (Downloader.answer (env s)) w1)
      as Hout.
    destruct (Hfail 0%nat ltac:(lia)) as (e & He & Hre).
    rewrite Nat.add_0_r in He. rewrite He in Hout.
    destruct (Downloader._stream_download sha cfg url lp (Downloader.answer (env s)) w1)
      as [w2 r2].
    simpl in Hdb2, Hout. subst r2. rewrite Hre.
    rewrite bool_decide_eq_false_2
      by (pose proof (Z.pow_nonneg (Config.backoff_factor (Config.download cfg))
                        (Z.of_nat s) Hb); lia).
    match goal with |- context [Downloader.attempts_loop _ _ _ _ _ _ _ _ ?l ?w3] =>
      destruct (IH m (S s) l w3) as (w' & Hrun & Hf & Hdb)
    end.
    { intros j Hj. replace (S s + j)%nat with (s + S j)%nat by lia.
      apply Hfail. lia. }
    { by replace (S s + k)%nat with (s + S k)%nat by lia. }
    exists w'. split; [exact Hrun|]. split; [done|].
    rewrite Hdb. simpl. congruence.
Qed.

End OverCapFacts.

(** C3, as the specification words it, fails: a response of 4 bytes under
    a cap of 3 makes the download fail, the row is [failed] and not
    [downloaded], but the 4 bytes written stay in the destination file. *)
Lemma oversized_download_leaves_file :
  let w' := (BaseSource.run length_digest Py.os_path_basename doj_capped
               [("https://x.org/a.pdf", no_meta)]
               (λ _, serving [Downloader.Chunk pdf_bytes]) world0).1.1 in
  (∃ r, Db.documents (db w') = [r]
        ∧ Document.download_status r = "failed"
        ∧ Document.error r = Some "File exceeded max size during download: 4 bytes")
  ∧ fs w' !! "data/doj/a.pdf" = Some (Binary pdf_bytes)
  ∧ fs w' !! "data/doj/a.pdf" ≠ None.
Proof.
  vm_compute. split; [|split; [reflexivity|discriminate]].
  eexists. split; [reflexivity|]. split; reflexivity.
Qed.

(** C3, amended. When the byte counter of a download passes
    [max_file_size] while the body is streamed, at the first attempt or
    after attempts that were retried, the download fails with the error
    "File exceeded max size during download", which is not retried: the
    row of the document becomes [failed] with that error and without path,
    hash or size, no other row changes, so no row becomes [downloaded]; the
    bytes received up to and including the chunk that passed the cap remain
    in the destination file. *)
Theorem oversized_download_fails
    (sha : list Byte.byte → string) (urlparse : string → string)
    (self : BaseSource.BaseSource) (c : BaseSource.counters) (url : string)
    (m : BaseSource.meta) (env : BaseSource.item_env) (w : World)
    (k : nat) (data : list Byte.byte) :
  ids_ok (db w) →
  Db.url_exists (db w) url = false →
  0 ≤ Config.backoff_factor (Config.download (BaseSource.config self)) →
  (k < Z.to_nat (Config.max_retries (Config.download (BaseSource.config self))))%nat →
  (∀ j, (j < k)%nat →
     fails_retryably
       (outcome sha (BaseSource.config self) url (item_path urlparse self url m)
          (Downloader.answer (BaseSource.attempts env j)))) →
  over_cap (BaseSource.config self) (item_path urlparse self url m)
    (Downloader.answer (BaseSource.attempts env k)) data →
  ∃ w' row,
    BaseSource.run_item sha urlparse self c url m env w
    = (w', BaseSource.count_failed (BaseSource.count_discovered c), None)
    ∧ Db.documents (db w') = Db.documents (db w) ++ [row]
    ∧ Document.url row = url
    ∧ Document.download_status row = "failed"
    ∧ Document.error row = Some (exceeded_message (Z.of_nat (length data)))
    ∧ Document.local_path row = None
    ∧ Document.sha256 row = None
    ∧ Document.file_size row = None
    ∧ fs w' !! item_path urlparse self url m = Some (Binary data)
    ∧ Config.max_file_size (Config.download (BaseSource.config self))
      < Z.of_nat (length data).
Proof.
  intros Hids Hu Hb Hk Hfail Hover.
  destruct (item_download_db sha urlparse self url m env w Hids Hu)
    as (row0 & Hdocs & Hseq & Hid & Hurl & _).
  assert (Hdl : ∃ w2,
            item_download sha urlparse self url m env w
            = (w2, Raise (ValueError (exceeded_message (Z.of_nat (length data)))))
            ∧ fs w2 !! item_path urlparse self url m = Some (Binary data)).
  { unfold item_download, Downloader.download_file. cbv zeta.
    fold (item_path urlparse self url m).
    set (n := Z.to_nat (Config.max_retries (Config.download (BaseSource.config self)))) in *.
    replace n with (k + S (n - k - 1))%nat by lia.
    match goal with
    |- context [Downloader.attempts_loop _ _ _ _ ?src ?rate ?e _ ?l ?w0] =>
      destruct (attempts_loop_over_cap sha (BaseSource.config self) url
                  (item_path urlparse self url m) src rate e data k Hb
                  (n - k - 1)%nat 0%nat l w0)
        as (w2 & Hrun & Hf & _); [done..|]
    end.
    exists w2. by rewrite Hrun. }
  destruct Hdl as (w2 & Hdl & Hf).
  rewrite Hdl in Hdocs, Hseq. cbn [fst] in Hdocs, Hseq.
  rewrite run_item_new by done. cbv zeta. rewrite Hdl.
  eexists _, _. split; [reflexivity|]. cbn [db set_db fs].
  rewrite (update_download_last (db w) (db w2) row0) by done.
  split; [reflexivity|]. simpl.
  repeat split; try done.
  destruct Hover as (_ & _ & _ & _ & _ & _ & _ & _ & _ & _ & _ & Hgt). exact Hgt.
Qed.

Lemma oversized_download_fails_witness :
  ∃ w' row,
    BaseSource.run_item length_digest Py.os_path_basename doj_capped
      {| BaseSource.discovered := 0; BaseSource.downloaded := 0;
         BaseSource.skipped := 0; BaseSource.failed := 0 |}
      "https://x.org/a.pdf" no_meta (serving [Downloader.Chunk pdf_bytes]) world0
    = (w', {| BaseSource.discovered := 1; BaseSource.downloaded := 0;
              BaseSource.skipped := 0; BaseSource.failed := 1 |}, None)
    ∧ Db.documents (db w') = [row]
    ∧ Document.download_status row = "failed"
    ∧ Document.error row = Some "File exceeded max size during download: 4 bytes"
    ∧ fs w' !! "data/doj/a.pdf" = Some (Binary pdf_bytes).
Proof.
  destruct (oversized_download_fails length_digest Py.os_path_basename doj_capped
              {| BaseSource.discovered := 0; BaseSource.downloaded := 0;
                 BaseSource.skipped := 0; BaseSource.failed := 0 |}
              "https://x.org/a.pdf" no_meta (serving [Downloader.Chunk pdf_bytes])
              world0 0%nat pdf_bytes)
    as (w' & row & Hrun & Hdocs & _ & Hst & Herr & _ & _ & _ & Hf & _).
  - split; [simpl; lia|]. intros r Hr. by apply elem_of_nil in Hr.
  - reflexivity.
  - simpl. lia.
  - simpl. lia.
  - intros j Hj. lia.
  - exists (Some "application/pdf"), None, [], pdf_bytes, [].
    split; [reflexivity|]. split; [reflexivity|].
    split; [intros n Hn; discriminate Hn|].
    split; [intros Hp; discriminate Hp|].
    split; [reflexivity|]. split; simpl; lia.
  - exists w', row. split; [exact Hrun|]. split; [exact Hdocs|].
    split; [exact Hst|]. split; [exact Herr|exact Hf].
Defined.

(** * Further properties *)

(** ** The catalog store: insertion and lookup *)

Section CatalogMore.

Implicit Types (d : Db.Database) (r : Document.row).

Lemma url_exists_false d u :
  Db.url_exists d u = false ↔ ∀ r, r ∈ Db.documents d → Document.url r ≠ u.
Proof.
  rewrite <- not_true_iff_false, url_exists_true. split.
  - intros Hn r Hr Hu. apply Hn. by exists r.
  - intros Hn (r & Hr & Hu). by apply (Hn r).
Qed.

Lemma url_exists_urls d u :
  Db.url_exists d u = true ↔ u ∈ urls (Db.documents d).
Proof.
  rewrite url_exists_true. unfold urls. rewrite list_elem_of_fmap.
  split; intros (r & H1 & H2); exists r; done.
Qed.

Lemma select_by_url_snoc d r u :
  Db.url_exists d u = false → Document.url r = u →
  List.find (λ r, bool_decide (Document.url r = u)) (Db.documents d ++ [r]) = Some r.
Proof.
  intros Hn Hu. pose proof (proj1 (url_exists_false d u) Hn) as Hall.
  clear Hn. induction (Db.documents d) as [|r' l IH]; simpl.
  - by rewrite bool_decide_eq_true_2.
  - rewrite bool_decide_eq_false_2.
    + apply IH. intros r0 Hr0. apply Hall. apply elem_of_cons. by right.
    + apply Hall. apply elem_of_cons. by left.
Qed.

(** [insert_document] in full, for a url that is new. *)
Lemma insert_document_new_row d now u src sid fname ttl metadata :
  Db.url_exists d u = false →
  ∃ d1 r,
    Db.insert_document d now u src sid fname ttl metadata = (d1, Ok (Document.id r))
    ∧ Db.documents d1 = Db.documents d ++ [r]
    ∧ Db.select_by_url d1 u = Some r
    ∧ Document.url r = u
    ∧ Document.source r = src
    ∧ Document.download_status r = "pending".
Proof.
  intros Hn. unfold Db.insert_document, Db.insert_or_ignore. rewrite Hn.
  cbn [Db.last_insert_rowid].
  match goal with |- context [Db.documents d ++ [?r0]] => set (r := r0) end.
  assert (∀ d1, Db.documents d1 = Db.documents d ++ [r] →
            Db.select_by_url d1 u = Some r) as Hsel.
  { intros d1 Hd1. unfold Db.select_by_url. rewrite Hd1.
    by apply select_by_url_snoc. }
  case_bool_decide.
  - eexists _, r. split; [done|]. split; [done|]. split; [by apply Hsel|done].
  - rewrite Hsel by done. eexists _, r. split; [done|].
    split; [done|]. split; [by apply Hsel|done].
Qed.

Lemma insert_document_urls d now u src sid fname ttl metadata :
  urls (Db.documents (Db.insert_document d now u src sid fname ttl metadata).1)
  = if Db.url_exists d u then urls (Db.documents d)
    else urls (Db.documents d) ++ [u].
Proof.
  pose proof (insert_document_documents d now u src sid fname ttl metadata) as H.
  simpl in H. destruct (Db.url_exists d u).
  - by rewrite H.
  - destruct H as (r & -> & _ & <- & _). unfold urls. by rewrite fmap_app.
Qed.

Lemma update_download_urls d now doc_id st lp sha size err :
  urls (Db.documents (Db.update_download d now doc_id st lp sha size err))
  = urls (Db.documents d).
Proof.
  unfold urls. simpl. rewrite <- list_fmap_compose.
  apply list_fmap_ext. intros i r _. simpl. by case_bool_decide.
Qed.

End CatalogMore.


(** X2. After [insert_document] the url exists in the catalog, the
    existence of every other url is what it was, and the rows that were
    there are still there, unchanged and in the same places. *)
Theorem insert_document_registers_url
    (d : Db.Database) (now : timestamp) (u src sid fname ttl : string)
    (metadata : option string) :
  let d' := (Db.insert_document d now u src sid fname ttl metadata).1 in
  Db.url_exists d' u = true
  ∧ (∀ u', u' ≠ u → Db.url_exists d' u' = Db.url_exists d u')
  ∧ (∀ i r, Db.documents d !! i = Some r → Db.documents d' !! i = Some r).
Proof.
  intros d'.
  pose proof (insert_document_urls d now u src sid fname ttl metadata) as Hu.
  pose proof (insert_document_documents d now u src sid fname ttl metadata) as Hd.
  fold d' in Hu, Hd. simpl in Hd.
  split; [|split].
  - apply url_exists_urls. rewrite Hu.
    destruct (Db.url_exists d u) eqn:He.
    + by apply url_exists_urls.
    + apply elem_of_app. right. by apply list_elem_of_singleton.
  - intros u' Hne. apply eq_true_iff_eq. rewrite !url_exists_urls, Hu.
    destruct (Db.url_exists d u); [done|].
    rewrite elem_of_app, list_elem_of_singleton.
    split; [intros [?|?]; done|by left].
  - intros i r Hi. destruct (Db.url_exists d u).
    + by rewrite Hd.
    + destruct Hd as (r0 & -> & _). by apply lookup_app_l_Some.
Qed.

(** X3. [update_download] with an id that no row has changes nothing, and
    raises nothing. *)
Theorem update_download_unknown_id
    (d : Db.Database) (now : timestamp) (doc_id : Z) (st : string)
    (lp sha : option string) (size : option Z) (err : option string) :
  (∀ r, r ∈ Db.documents d → Document.id r ≠ doc_id) →
  Db.update_download d now doc_id st lp sha size err = d.
Proof.
  intros Hn. unfold Db.update_download. destruct d as [docs s te ts l]. simpl in *.
  f_equal. rewrite <- (map_id docs) at 2. apply map_ext_in.
  intros r Hr%list_elem_of_In. rewrite bool_decide_eq_false_2; [done|by apply Hn].
Qed.

Lemma update_download_unknown_id_witness :
  Db.update_download one_downloaded 300 8 "failed" None None None (Some "timeout")
  = one_downloaded.
Proof.
  apply update_download_unknown_id.
  intros r Hr. apply list_elem_of_singleton in Hr as ->. done.
Defined.

(** X4. What [sha256_exists] returns is the path of a row of the table that
    is [downloaded] and has that hash: a row that is [pending], [failed] or
    [skipped], or that has no hash, never answers. *)
Theorem sha256_exists_sound (d : Db.Database) (h p : string) :
  Db.sha256_exists d h = Some p →
  ∃ r, r ∈ Db.documents d
       ∧ Document.download_status r = "downloaded"
       ∧ Document.sha256 r = Some h
       ∧ Document.local_path r = Some p.
Proof.
  unfold Db.sha256_exists.
  destruct (List.find _ _) as [r|] eqn:Hf; [|done].
  apply find_some in Hf as [Hin Hm]. unfold Db.downloaded_with in Hm.
  apply andb_true_iff in Hm as [H1%bool_decide_eq_true H2%bool_decide_eq_true].
  intros Hp. exists r. by rewrite list_elem_of_In.
Qed.

Lemma sha256_exists_sound_witness :
  ∃ r, r ∈ Db.documents one_downloaded
       ∧ Document.download_status r = "downloaded"
       ∧ Document.sha256 r = Some "9f86d081884c7d65"
       ∧ Document.local_path r = Some "data/doj/a.pdf".
Proof. apply sha256_exists_sound. reflexivity. Defined.

(** ** The adapter loop: counters, urls, reruns *)

Section LoopMore.

Variables (sha : list Byte.byte → string) (urlparse : string → string).
Implicit Types (w : World) (d : Db.Database) (c : BaseSource.counters).

(** One iteration of the loop of [run], in full: no exception leaves it;
    a known url is skipped and nothing changes; a new url gets a row, and
    that row one [update_download] to one of the three final statuses,
    counted under that status. *)
Lemma run_item_outcome self c url m env w :
  let '(w', c', e) := BaseSource.run_item sha urlparse self c url m env w in
  let cd := BaseSource.count_discovered c in
  e = None
  ∧ ((Db.url_exists (db w) url = true ∧ w' = w ∧ c' = BaseSource.count_skipped cd)
     ∨ (Db.url_exists (db w) url = false
        ∧ ∃ d1 r now st lp h size err,
            Db.documents d1 = Db.documents (db w) ++ [r]
            ∧ Document.url r = url
            ∧ Document.download_status r = "pending"
            ∧ Db.documents (db w')
              = Db.documents (Db.update_download d1 now (Document.id r) st lp h size err)
            ∧ ((st = "downloaded" ∧ c' = BaseSource.count_downloaded cd)
               ∨ (st = "skipped" ∧ c' = BaseSource.count_skipped cd)
               ∨ (st = "failed" ∧ c' = BaseSource.count_failed cd)))).
Proof.
  unfold BaseSource.run_item.
  destruct (Db.url_exists (db w) url) eqn:Hu; [by split; [|left]|].
  match goal with |- context [Db.insert_document ?a ?b ?c ?d ?e ?f ?g ?h] =>
    destruct (insert_document_new_row a b c d e f g h Hu)
      as (d1 & r & Hins & Hdocs & _ & Hurl & _ & Hst)
  end.
  rewrite Hins.
  match goal with |- context [Downloader.download_file ?a ?b ?c ?d ?e ?f ?g ?h ?i ?j] =>
    pose proof (download_file_db a b c d e f g h i j) as Hdb;
    destruct (Downloader.download_file a b c d e f g h i j) as [w2 [[[p hh] z]|e0]]
  end; simpl in Hdb.
  - destruct (Py.truthy (Db.sha256_exists (db w2) hh)) eqn:Hex.
    + destruct (fs w2 !! p); (split; [done|]); right; (split; [done|]);
        exists d1, r; eexists _, _, _, _, _, _;
        (split; [done|]); (split; [done|]); (split; [done|]);
        simpl; rewrite Hdb; (split; [reflexivity|]).
      * right. by left.
      * right. by right.
    + destruct (_ && _).
      * match goal with |- context [BaseSource._extract_text ?a ?b ?c ?d ?w3] =>
          destruct (extract_text_documents a b c d w3) as [Hd Hs];
          destruct (BaseSource._extract_text a b c d w3) as [dd ff cc ll tt] eqn:Hx
        end.
        split; [done|]. right. split; [done|].
        exists d1, r. eexists _, _, _, _, _, _.
        split; [done|]. split; [done|]. split; [done|].
        simpl in Hd |- *. rewrite Hd, Hdb. split; [reflexivity|]. by left.
      * split; [done|]. right. split; [done|].
        exists d1, r. eexists _, _, _, _, _, _.
        split; [done|]. split; [done|]. split; [done|].
        simpl. rewrite Hdb. split; [reflexivity|]. by left.
  - split; [done|]. right. split; [done|].
    exists d1, r. eexists _, _, _, _, _, _.
    split; [done|]. split; [done|]. split; [done|].
    simpl. rewrite Hdb. split; [reflexivity|]. right. by right.
Qed.

Lemma run_item_urls self c url m env w :
  urls (Db.documents (db (BaseSource.run_item sha urlparse self c url m env w).1.1))
  = if Db.url_exists (db w) url then urls (Db.documents (db w))
    else urls (Db.documents (db w)) ++ [url].
Proof.
  pose proof (run_item_outcome self c url m env w) as H.
  destruct (BaseSource.run_item sha urlparse self c url m env w) as [[w' c'] e].
  destruct H as [_ [(-> & -> & _)|(-> & d1 & r & now & st & lp & h & size & err
                                    & Hd1 & Hu & _ & Hd' & _)]]; [done|].
  simpl. rewrite Hd', update_download_urls, Hd1. unfold urls.
  by rewrite fmap_app, <- Hu.
Qed.

Lemma run_item_url_exists self c url m env w u :
  Db.url_exists (db (BaseSource.run_item sha urlparse self c url m env w).1.1) u
  = Db.url_exists (db w) u || bool_decide (u = url).
Proof.
  apply eq_true_iff_eq. rewrite orb_true_iff, bool_decide_eq_true, !url_exists_urls.
  rewrite run_item_urls. destruct (Db.url_exists (db w) url) eqn:He.
  - split; [by left|]. intros [?| ->]; [done|]. by apply url_exists_urls.
  - rewrite elem_of_app, list_elem_of_singleton. done.
Qed.

Lemma run_loop_url_exists self items env i c w u :
  Db.url_exists (db (BaseSource.run_loop sha urlparse self items env i c w).1.1) u
  = Db.url_exists (db w) u || bool_decide (u ∈ items.*1).
Proof.
  revert i c w. induction items as [|[url m] rest IH]; intros i c w.
  - simpl. by rewrite orb_false_r.
  - cbn [BaseSource.run_loop]. rewrite fmap_cons. cbn [fst].
    pose proof (run_item_outcome self c url m (env i) w) as Ho.
    pose proof (run_item_url_exists self c url m (env i) w u) as Hx.
    destruct (BaseSource.run_item sha urlparse self c url m (env i) w) as [[w1 c1] e].
    destruct Ho as [-> _]. simpl in Hx. rewrite IH, Hx.
    rewrite <- orb_assoc. f_equal. apply eq_true_iff_eq.
    rewrite orb_true_iff, !bool_decide_eq_true, elem_of_cons. done.
Qed.


Lemma run_loop_urls_unique self items env i c w :
  urls_unique (db w) →
  urls_unique (db (BaseSource.run_loop sha urlparse self items env i c w).1.1).
Proof.
  revert i c w. induction items as [|[url m] rest IH]; intros i c w Hw; [done|].
  cbn [BaseSource.run_loop].
  pose proof (run_item_outcome self c url m (env i) w) as Ho.
  pose proof (run_item_urls self c url m (env i) w) as Hu.
  destruct (BaseSource.run_item sha urlparse self c url m (env i) w) as [[w1 c1] e].
  destruct Ho as [-> _]. simpl in Hu. apply IH. unfold urls_unique. rewrite Hu.
  destruct (Db.url_exists (db w) url) eqn:He; [done|].
  apply NoDup_app. split; [done|]. split; [|apply NoDup_singleton].
  intros u Hin ->%list_elem_of_singleton.
  apply url_exists_urls in Hin. congruence.
Qed.


Lemma run_item_pending self c url m env w r :
  r ∈ Db.documents (db (BaseSource.run_item sha urlparse self c url m env w).1.1) →
  Document.download_status r = "pending" →
  r ∈ Db.documents (db w).
Proof.
  pose proof (run_item_outcome self c url m env w) as Ho.
  destruct (BaseSource.run_item sha urlparse self c url m env w) as [[w1 c1] e].
  destruct Ho as [_ [(_ & -> & _)|(_ & d1 & r0 & now & st & lp & h & size & err
                                   & Hd1 & _ & _ & Hd' & Hst)]]; [done|].
  simpl. rewrite Hd'. simpl. rewrite Hd1. intros Hin Hp.
  apply list_elem_of_In, in_map_iff in Hin as (r1 & Hr & Hin).
  apply list_elem_of_In, elem_of_app in Hin.
  case_bool_decide as Hid.
  - subst r. simpl in Hp. subst st. by destruct Hst as [[? _]|[[? _]|[? _]]].
  - subst r1. destruct Hin as [?| ->%list_elem_of_singleton]; done.
Qed.

Lemma run_loop_pending self items env i c w r :
  r ∈ Db.documents (db (BaseSource.run_loop sha urlparse self items env i c w).1.1) →
  Document.download_status r = "pending" →
  r ∈ Db.documents (db w).
Proof.
  revert i c w. induction items as [|[url m] rest IH]; intros i c w; [done|].
  cbn [BaseSource.run_loop].
  pose proof (run_item_outcome self c url m (env i) w) as Ho.
  pose proof (run_item_pending self c url m (env i) w r) as Hp.
  destruct (BaseSource.run_item sha urlparse self c url m (env i) w) as [[w1 c1] e].
  destruct Ho as [-> _]. simpl in Hp. intros Hin Hst. apply Hp; [|done].
  by apply (IH (S i) c1 w1).
Qed.

End LoopMore.


(** X6. [run] keeps column [url] of table [documents] free of duplicates. *)
Theorem run_keeps_urls_unique
    (sha : list Byte.byte → string) (urlparse : string → string)
    (self : BaseSource.BaseSource) (items : list (string * BaseSource.meta))
    (env : nat → BaseSource.item_env) (w : World) :
  urls_unique (db w) →
  urls_unique (db (BaseSource.run sha urlparse self items env w).1.1).
Proof. apply run_loop_urls_unique. Qed.

Lemma run_keeps_urls_unique_witness :
  urls_unique (db world0) ∧ urls_unique (db after_first_download).
Proof.
  assert (urls_unique (db world0)) as H0 by apply NoDup_nil_2.
  split; [exact H0|].
  exact (run_keeps_urls_unique length_digest Py.os_path_basename doj
           [("https://x.org/a.pdf", no_meta)]
           (λ _, serving [Downloader.Chunk pdf_bytes]) world0 H0).
Defined.

(** X7. After [run] the urls the catalog knows are the ones it knew before
    and the ones the adapter yielded: every discovered url has a row,
    whatever became of its download, and no other url is added. *)
Theorem run_registers_discovered_urls
    (sha : list Byte.byte → string) (urlparse : string → string)
    (self : BaseSource.BaseSource) (items : list (string * BaseSource.meta))
    (env : nat → BaseSource.item_env) (w : World) (u : string) :
  Db.url_exists (db (BaseSource.run sha urlparse self items env w).1.1) u
  = Db.url_exists (db w) u || bool_decide (u ∈ items.*1).
Proof. apply run_loop_url_exists. Qed.


(** X9. [run] leaves no document behind as [pending]: a row that
    [get_pending_docs] lists after a run was listed before it. *)
Theorem run_leaves_no_pending
    (sha : list Byte.byte → string) (urlparse : string → string)
    (self : BaseSource.BaseSource) (items : list (string * BaseSource.meta))
    (env : nat → BaseSource.item_env) (w : World) (source : string)
    (r : Document.row) :
  let w' := (BaseSource.run sha urlparse self items env w).1.1 in
  r ∈ Queries.get_pending_docs (db w') source →
  r ∈ Queries.get_pending_docs (db w) source.
Proof.
  intros w'. unfold Queries.get_pending_docs.
  rewrite !list_elem_of_In, !filter_In, <- !list_elem_of_In.
  intros [Hin Hf]. split; [|done].
  apply andb_true_iff in Hf as [_ Hp%bool_decide_eq_true].
  by eapply run_loop_pending.
Qed.

Lemma run_leaves_no_pending_witness :
  pending_row ∈ Queries.get_pending_docs (db interrupted) "doj".
Proof.
  apply (run_leaves_no_pending length_digest Py.os_path_basename doj
           [("https://x.org/a.pdf", no_meta)]
           (λ _, serving [Downloader.Chunk pdf_bytes]) interrupted "doj" pending_row).
  apply list_elem_of_In. vm_compute. by left.
Defined.

(** ** The download engine: what a returned download means, and the
    refusals made on the headers *)

Section DownloadMore.

Variable sha : list Byte.byte → string.
Implicit Types (w : World) (cfg : Config.AppConfig).

(** While the body is streamed the file holds the bytes hashed so far and
    the counter is their number; the counter has been compared with the cap
    after every chunk. *)
Lemma stream_body_ok max lp body hashed size w w' hashed' size' :
  fs w !! lp = Some (Binary hashed) →
  size = Z.of_nat (length hashed) →
  Downloader.stream_body max lp body hashed size w = (w', Ok (hashed', size')) →
  fs w' !! lp = Some (Binary hashed')
  ∧ size' = Z.of_nat (length hashed')
  ∧ (hashed' = hashed ∨ size' ≤ max)
  ∧ ∀ p, p ≠ lp → fs w' !! p = fs w !! p.
Proof.
  revert hashed size w.
  induction body as [|ev body IH]; intros hashed size w Hf Hs; simpl.
  - intros [= <- <- <-]. split; [done|]. split; [done|]. split; [by left|done].
  - destruct ev as [chunk|msg|msg]; [|done..].
    case_bool_decide as Hcap; [done|]. rewrite Hf. intros Hrun.
    apply IH in Hrun as (H1 & H2 & H3 & H4).
    + split; [done|]. split; [done|]. split.
      * right. destruct H3 as [->|H3]; [|done].
        rewrite H2, length_app, Nat2Z.inj_add. lia.
      * intros p Hp. rewrite H4 by done. simpl. by rewrite lookup_insert_ne.
    + simpl. by rewrite lookup_insert_eq.
    + rewrite length_app, Nat2Z.inj_add. lia.
Qed.

Lemma stream_download_describes cfg url lp x w w' p h z :
  Downloader._stream_download sha cfg url lp x w = (w', Ok (p, h, z)) →
  ∃ data, fs w' !! p = Some (Binary data)
          ∧ h = sha data
          ∧ z = Z.of_nat (length data)
          ∧ (data = [] ∨ z ≤ Config.max_file_size (Config.download cfg))
          ∧ ∀ q, q ≠ p → fs w' !! q = fs w !! q.
Proof.
  unfold Downloader._stream_download.
  destruct x as [msg|status ct cl oe body]; [done|].
  destruct status; [done|].
  destruct (_ && _); [done|].
  destruct cl as [n|]; [case_bool_decide|]; try done.
  all: case_bool_decide as Hlp; [done|].
  all: destruct oe; [done|].
  all: match goal with |- context [Downloader.stream_body ?m ?l ?b ?hh ?s ?w1] =>
         pose proof (stream_body_ok m l b hh s w1) as Hok;
         destruct (Downloader.stream_body m l b hh s w1) as [w2 [[hashed size]|e]]
       end; [|done].
  all: intros [= <- <- <- <-].
  all: destruct (Hok w2 hashed size) as (H1 & H2 & H3 & H4);
         [simpl; by rewrite lookup_insert_eq|done|done|].
  all: exists hashed; split; [done|]; split; [done|]; split; [done|]; split; [done|].
  all: intros q Hq; rewrite H4 by done; simpl; by rewrite lookup_insert_ne.
Qed.

Lemma attempts_loop_describes cfg url lp source rate env attempts last w w' p h z :
  Downloader.attempts_loop sha cfg url lp source rate env attempts last w
  = (w', Ok (p, h, z)) →
  ∃ data, fs w' !! p = Some (Binary data)
          ∧ h = sha data
          ∧ z = Z.of_nat (length data)
          ∧ (data = [] ∨ z ≤ Config.max_file_size (Config.download cfg)).
Proof.
  revert last w. induction attempts as [|a attempts IH]; intros last w; simpl.
  - by destruct last.
  - remember (Downloader.rate_limit source rate (Downloader.rate_late (env a)) w) as w1.
    destruct (Downloader._stream_download sha cfg url lp (Downloader.answer (env a)) w1)
      as [w2 [v|e]] eqn:Hs.
    + intros [= <- Hv]. subst v. simpl.
      apply stream_download_describes in Hs as (data & H1 & H2 & H3 & H4 & _).
      by exists data.
    + destruct (Downloader.retryable e); [|done].
      case_bool_decide; [done|]. apply IH.
Qed.

(** An attempt that ends in an error [download_file] does not catch ends
    the call, after that one request. *)
Lemma attempts_loop_fatal cfg url lp source rate env a rest last w w2 e :
  Downloader._stream_download sha cfg url lp (Downloader.answer (env a))
    (Downloader.rate_limit source rate (Downloader.rate_late (env a)) w)
  = (w2, Raise e) →
  Downloader.retryable e = false →
  Downloader.attempts_loop sha cfg url lp source rate env (a :: rest) last w
  = (tick (Downloader.duration (env a)) w2, Raise e).
Proof. intros Hs Hr. simpl. by rewrite Hs, Hr. Qed.

(** A first attempt refused before the file is opened: one request, no
    retry, and the files are as they were. *)
Lemma download_file_refused cfg url dest_dir filename source doc_id sc env w e :
  0 < Config.max_retries (Config.download cfg) →
  (∀ w1, Downloader._stream_download sha cfg url (Py.os_path_join dest_dir filename)
           (Downloader.answer (env 0%nat)) w1
         = (log_event (EvRequest url) w1, Raise e)) →
  Downloader.retryable e = false →
  ∃ w' new,
    Downloader.download_file sha cfg url dest_dir filename source doc_id sc env w
    = (w', Raise e)
    ∧ fs w' = fs w ∧ db w' = db w
    ∧ trace w' = trace w ++ new ∧ requests new = 1%nat ∧ retry_waits new = [].
Proof.
  intros Hn Hs Hr. unfold Downloader.download_file.
  destruct (Z.to_nat (Config.max_retries (Config.download cfg))) as [|n'] eqn:Hm; [lia|].
  cbn [seq].
  match goal with |- context [Downloader.attempts_loop _ _ _ _ _ ?rate _ _ _ _] =>
    set (r := rate) end.
  destruct (rate_limit_trace source r (Downloader.rate_late (env 0%nat)) w)
    as (pre & Hpre & Hq & Hw).
  eexists _, (pre ++ [EvRequest url]).
  split; [by apply attempts_loop_fatal|].
  unfold tick, set_clock, log_event. cbn [fs db trace].
  rewrite rate_limit_fs, rate_limit_db, Hpre, requests_app, retry_waits_app, Hq, Hw.
  by rewrite <- app_assoc.
Qed.

End DownloadMore.

(** X10. What [download_file] returns describes the file it has written:
    the file at the returned path holds exactly the bytes that were hashed,
    the returned size is their number, and a file that is not empty does
    not exceed [max_file_size]. *)
Theorem download_file_describes_file
    (sha : list Byte.byte → string) (cfg : Config.AppConfig)
    (url dest_dir filename source : string) (doc_id : Z)
    (source_config : option Config.SourceConfig)
    (env : nat → Downloader.attempt_env) (w w' : World)
    (p h : string) (z : Z) :
  Downloader.download_file sha cfg url dest_dir filename source doc_id
    source_config env w = (w', Ok (p, h, z)) →
  ∃ data, fs w' !! p = Some (Binary data)
          ∧ h = sha data
          ∧ z = Z.of_nat (length data)
          ∧ (data = [] ∨ z ≤ Config.max_file_size (Config.download cfg)).
Proof. apply attempts_loop_describes. Qed.

Lemma download_file_describes_file_witness :
  let w' := (Downloader.download_file length_digest Config.default_app
               "https://x.org/a.pdf" "data/doj" "a.pdf" "doj" 1 None
               (BaseSource.attempts (serving [Downloader.Chunk pdf_bytes])) world0).1 in
  ∃ data, fs w' !! "data/doj/a.pdf" = Some (Binary data)
          ∧ "4" = length_digest data
          ∧ 4 = Z.of_nat (length data)
          ∧ (data = [] ∨ 4 ≤ Config.max_file_size (Config.download Config.default_app)).
Proof.
  intros w'.
  apply (download_file_describes_file length_digest Config.default_app
           "https://x.org/a.pdf" "data/doj" "a.pdf" "doj" 1 None
           (BaseSource.attempts (serving [Downloader.Chunk pdf_bytes])) world0 w').
  vm_compute. reflexivity.
Defined.

(** X11. A page of HTML served where a [.pdf] or a [.zip] is expected (an
    age gate, an error page) is refused on its headers: [download_file]
    raises the [ValueError] after one request, without a retry, and writes
    nothing. *)
Theorem html_for_binary_refused
    (sha : list Byte.byte → string) (cfg : Config.AppConfig)
    (url dest_dir filename source : string) (doc_id : Z)
    (source_config : option Config.SourceConfig)
    (env : nat → Downloader.attempt_env) (w : World)
    (ct : string) (cl : option Z) (oe : option string)
    (body : list Downloader.body_event) :
  let local_path := Py.os_path_join dest_dir filename in
  0 < Config.max_retries (Config.download cfg) →
  Downloader.answer (env 0%nat) = Downloader.Response None (Some ct) cl oe body →
  Py.contains "text/html" ct = true →
  Py.endswith ".pdf" (Py.lower local_path) || Py.endswith ".zip" (Py.lower local_path)
  = true →
  ∃ w' new,
    Downloader.download_file sha cfg url dest_dir filename source doc_id
      source_config env w
    = (w', Raise (ValueError ("Expected binary but got HTML (content-type: "
                                +:+ ct +:+ ")")))
    ∧ fs w' = fs w ∧ db w' = db w
    ∧ trace w' = trace w ++ new ∧ requests new = 1%nat ∧ retry_waits new = [].
Proof.
  intros lp Hn Ha Hct Hext. apply download_file_refused; [done| |done].
  intros w1. unfold Downloader._stream_download. rewrite Ha. simpl.
  fold lp. by rewrite Hct, Hext.
Qed.

Lemma html_for_binary_refused_witness :
  ∃ w' new,
    Downloader.download_file length_digest Config.default_app
      "https://x.org/a.pdf" "data/doj" "a.pdf" "doj" 1 None age_gate world0
    = (w', Raise (ValueError
                    "Expected binary but got HTML (content-type: text/html; charset=utf-8)"))
    ∧ fs w' = fs world0 ∧ db w' = db world0
    ∧ trace w' = trace world0 ++ new ∧ requests new = 1%nat ∧ retry_waits new = [].
Proof.
  apply (html_for_binary_refused length_digest Config.default_app
           "https://x.org/a.pdf" "data/doj" "a.pdf" "doj" 1 None age_gate world0
           "text/html; charset=utf-8" None None [Downloader.Chunk pdf_bytes]).
  - simpl. lia.
  - reflexivity.
  - reflexivity.
  - reflexivity.
Defined.

(** X12. A response whose [content-length] header announces more than
    [max_file_size] is refused before the file is opened: [download_file]
    raises the [ValueError] after one request, without a retry, and writes
    nothing, so that no partial file is left. *)
Theorem announced_oversize_refused
    (sha : list Byte.byte → string) (cfg : Config.AppConfig)
    (url dest_dir filename source : string) (doc_id : Z)
    (source_config : option Config.SourceConfig)
    (env : nat → Downloader.attempt_env) (w : World)
    (ct : option string) (n : Z) (oe : option string)
    (body : list Downloader.body_event) :
  let local_path := Py.os_path_join dest_dir filename in
  0 < Config.max_retries (Config.download cfg) →
  Downloader.answer (env 0%nat) = Downloader.Response None ct (Some n) oe body →
  Py.contains "text/html" (default "" ct)
  && (Py.endswith ".pdf" (Py.lower local_path) || Py.endswith ".zip" (Py.lower local_path))
  = false →
  Config.max_file_size (Config.download cfg) < n →
  ∃ w' new,
    Downloader.download_file sha cfg url dest_dir filename source doc_id
      source_config env w
    = (w', Raise (ValueError ("File too large: " +:+ pretty n +:+ " bytes")))
    ∧ fs w' = fs w ∧ db w' = db w
    ∧ trace w' = trace w ++ new ∧ requests new = 1%nat ∧ retry_waits new = [].
Proof.
  intros lp Hn Ha Hct Hbig. apply download_file_refused; [done| |done].
  intros w1. unfold Downloader._stream_download. rewrite Ha. cbv zeta.
  fold lp. rewrite Hct. rewrite bool_decide_eq_true_2 by lia. done.
Qed.

Lemma announced_oversize_refused_witness :
  ∃ w' new,
    Downloader.download_file length_digest (BaseSource.config doj_capped)
      "https://x.org/a.pdf" "data/doj" "a.pdf" "doj" 1 None announcing_4_bytes world0
    = (w', Raise (ValueError "File too large: 4 bytes"))
    ∧ fs w' = fs world0 ∧ db w' = db world0
    ∧ trace w' = trace world0 ++ new ∧ requests new = 1%nat ∧ retry_waits new = [].
Proof.
  apply (announced_oversize_refused length_digest (BaseSource.config doj_capped)
           "https://x.org/a.pdf" "data/doj" "a.pdf" "doj" 1 None announcing_4_bytes world0
           (Some "application/pdf") 4 None [Downloader.Chunk pdf_bytes]).
  - simpl. lia.
  - reflexivity.
  - reflexivity.
  - simpl. lia.
Defined.

(** ** Plain requests *)

Section FetchMore.

Implicit Types (w : World) (cfg : Config.AppConfig).

Lemma fetch_text_json cfg url source rate env w :
  Fetcher.fetch_json cfg url source rate env w
  = Fetcher.fetch_text cfg url source rate env w.
Proof. reflexivity. Qed.

Lemma fetch_text_last cfg url source rate env w :
  let w' := (Fetcher.fetch_text cfg url source rate env w).1 in
  ∃ t, last_request_time w' !! source = Some t
       ∧ t ≤ clock w'
       ∧ default 0 (last_request_time w !! source) + Fetcher.rate_or_default cfg rate ≤ t.
Proof.
  unfold Fetcher.fetch_text. cbn [fst]. unfold tick, set_clock, log_event.
  cbn [last_request_time clock].
  rewrite rate_limit_last, bool_decide_eq_true_2 by done.
  eexists. split; [done|]. rewrite rate_limit_clock. lia.
Qed.

Lemma fetch_text_frame cfg url source rate env w :
  let w' := (Fetcher.fetch_text cfg url source rate env w).1 in
  db w' = db w ∧ fs w' = fs w
  ∧ requests (trace w') = S (requests (trace w)).
Proof.
  unfold Fetcher.fetch_text. cbn [fst]. unfold tick, set_clock, log_event.
  cbn [db fs trace]. rewrite rate_limit_db, rate_limit_fs.
  destruct (rate_limit_trace source (Fetcher.rate_or_default cfg rate)
              (Fetcher.get_late env) w) as (pre & -> & Hq & _).
  rewrite !requests_app, Hq. simpl. split; [done|]. split; [done|]. lia.
Qed.

End FetchMore.

(** X13. [fetch_json] and [fetch_text] called without a rate, or with a
    rate of zero, wait for the default rate: the request is sent no earlier
    than [default_rate_limit] after the time recorded for the previous
    request to the source, whatever happened in between.  The call sends
    one request and returns or raises what that request gives, without
    retry, and touches neither the catalog nor the files. *)
Theorem fetch_falsy_rate_waits_default
    (cfg : Config.AppConfig) (url1 url2 source : string) (rate1 rate2 : option Z)
    (env1 env2 : Fetcher.get_env) (between : list action) (w : World) :
  rate2 = None ∨ rate2 = Some 0 →
  let w1 := (Fetcher.fetch_json cfg url1 source rate1 env1 w).1 in
  let w1' := acts w1 between in
  let '(w2, r2) := Fetcher.fetch_text cfg url2 source rate2 env2 w1' in
  ∃ t1 t2,
    last_request_time w1 !! source = Some t1
    ∧ last_request_time w2 !! source = Some t2
    ∧ t1 + Config.default_rate_limit (Config.download cfg) ≤ t2
    ∧ r2 = Fetcher.reply env2
    ∧ requests (trace w2) = S (requests (trace w1'))
    ∧ db w2 = db w1' ∧ fs w2 = fs w1'.
Proof.
  intros Hr w1 w1'.
  assert (Fetcher.rate_or_default cfg rate2
          = Config.default_rate_limit (Config.download cfg)) as Hrate.
  { by destruct Hr as [->| ->]. }
  destruct (fetch_text_last cfg url1 source rate1 env1 w) as (t1 & Ht1 & Hle1 & _).
  rewrite <- fetch_text_json in Ht1, Hle1. fold w1 in Ht1, Hle1.
  assert (recorded_in_past source w1) as Hpast.
  { intros t Ht. rewrite Ht1 in Ht. by injection Ht as <-. }
  destruct (acts_last w1 between source t1 Hpast Ht1) as (t' & Ht' & Hle').
  fold w1' in Ht'.
  pose proof (fetch_text_last cfg url2 source rate2 env2 w1') as (t2 & Ht2 & _ & Hge).
  pose proof (fetch_text_frame cfg url2 source rate2 env2 w1') as (Hdb & Hfs & Hreq).
  assert ((Fetcher.fetch_text cfg url2 source rate2 env2 w1').2 = Fetcher.reply env2)
    as Hres by done.
  destruct (Fetcher.fetch_text cfg url2 source rate2 env2 w1') as [w2 r2].
  simpl in *. exists t1, t2. rewrite Ht', Hrate in Hge. simpl in Hge.
  repeat split; try done. lia.
Qed.

Lemma fetch_falsy_rate_waits_default_witness :
  let w1 := (Fetcher.fetch_json Config.default_app "https://x.org/api?page=1" "doj"
               (Some 0) answering world0).1 in
  let w2 := (Fetcher.fetch_text Config.default_app "https://x.org/page/2" "doj"
               (Some 0) answering (acts w1 [Pass 10])).1 in
  ∃ t1 t2,
    last_request_time w1 !! "doj" = Some t1
    ∧ last_request_time w2 !! "doj" = Some t2
    ∧ t1 + 2 * second ≤ t2.
Proof.
  intros w1 w2.
  destruct (fetch_falsy_rate_waits_default Config.default_app
              "https://x.org/api?page=1" "https://x.org/page/2" "doj" (Some 0) (Some 0)
              answering answering [Pass 10] world0 (or_intror eq_refl))
    as (t1 & t2 & H1 & H2 & H3 & _).
  exists t1, t2. split; [exact H1|]. split; [exact H2|exact H3].
Defined.

(** ** The queue of documents to extract *)

(** X14. Recording a [completed] extraction of a document takes the
    document off the list [get_downloaded_docs] returns, and takes nothing
    else off; recording an extraction with any other status, such as
    [failed], leaves the list as it is, so that the document is tried again
    by the next extraction pass. *)
Theorem extraction_row_and_queue
    (d : Db.Database) (now : timestamp) (doc_id : Z) (output_path method : string)
    (page_count char_count ocr_pages : Z) (st : string) (err : option string)
    (source : option string) :
  Queries.get_downloaded_docs
    (Db.insert_extraction d now doc_id output_path method page_count char_count
       ocr_pages st err) source
  = if bool_decide (st = "completed")
    then List.filter (λ r, negb (bool_decide (Document.id r = doc_id)))
           (Queries.get_downloaded_docs d source)
    else Queries.get_downloaded_docs d source.
Proof.
  unfold Queries.get_downloaded_docs. cbn [Db.documents Db.text_extractions Db.insert_extraction].
  induction (Db.documents d) as [|r docs IH]; [by case_bool_decide|].
  cbn [List.filter]. rewrite IH. clear IH.
  rewrite existsb_app. cbn [existsb]. unfold Queries.completed_for at 2.
  cbn [Extraction.document_id Extraction.status]. rewrite orb_false_r.
  destruct (bool_decide (Document.download_status r = "downloaded")); cbn [andb];
    [|by case_bool_decide].
  destruct (if Py.truthy source then _ else _); cbn [andb]; [|by case_bool_decide].
  destruct (existsb _ _); cbn [negb orb andb].
  - by case_bool_decide.
  - assert (bool_decide (doc_id = Document.id r) = bool_decide (Document.id r = doc_id))
      as -> by (apply bool_decide_ext; done).
    destruct (bool_decide (st = "completed")); [|by rewrite andb_false_r].
    rewrite andb_true_r. cbn [List.filter].
    by destruct (bool_decide (Document.id r = doc_id)).
Qed.

(** ** The text extractor: what the counts mean *)

Section ExtractMore.

Import Extractor.

Variables (self : TextExtractor) (ocr : nat → option str).

Lemma join_length (sep : str) (parts : list str) :
  parts ≠ [] →
  length (join sep parts) = (total_length parts + length sep * (length parts - 1))%nat.
Proof.
  induction parts as [|p rest IH]; [done|]. intros _.
  destruct rest as [|q rest].
  - unfold total_length. simpl. lia.
  - change (join sep (p :: q :: rest)) with (p ++ sep ++ join sep (q :: rest)).
    rewrite !length_app, IH by done. unfold total_length. simpl. lia.
Qed.

Lemma total_length_app (l1 l2 : list str) :
  total_length (l1 ++ l2) = (total_length l1 + total_length l2)%nat.
Proof.
  unfold total_length. rewrite fmap_app.
  induction (length <$> l1) as [|k ks IH]; [done|].
  simpl. rewrite IH. lia.
Qed.

Lemma page_block_length n (text : str) :
  (14 + length text ≤ length (page_block n text))%nat.
Proof.
  unfold page_block. rewrite !length_app.
  change (length (lit "--- Page ")) with 9%nat.
  change (length (lit " ---")) with 4%nat. simpl. lia.
Qed.

(** OCR text is taken only when it is longer than the text of the page. *)
Lemma kept_text_length st n raw :
  (length (strip raw) ≤ length (kept_text self ocr st n raw))%nat.
Proof.
  unfold kept_text. destruct (wants_ocr _ _ _); [|done]. simpl.
  unfold adopts. destruct (negb _); [|done]. simpl.
  case_bool_decide; lia.
Qed.

Lemma page_loop_total st n pages :
  (total_length (all_text st) + native_chars pages + 14 * length pages
   ≤ total_length (all_text (page_loop self ocr st n pages)))%nat.
Proof.
  revert st n. induction pages as [|raw pages IH]; intros st n.
  - unfold native_chars. simpl. lia.
  - cbn [page_loop]. etrans; [|apply IH].
    rewrite page_step_all_text, total_length_app.
    pose proof (page_block_length n (kept_text self ocr st n raw)).
    pose proof (kept_text_length st n raw).
    change (native_chars (raw :: pages))
      with (length (strip raw) + native_chars pages)%nat.
    change (total_length [page_block n (kept_text self ocr st n raw)])
      with (length (page_block n (kept_text self ocr st n raw)) + 0)%nat.
    cbn [length]. lia.
Qed.

Lemma page_loop_ocr_pages_le st n pages :
  (ocr_pages (page_loop self ocr st n pages) ≤ ocr_pages st + length pages)%nat.
Proof.
  revert st n. induction pages as [|raw pages IH]; intros st n; simpl; [lia|].
  etrans; [apply IH|]. rewrite page_step_ocr_pages.
  destruct (_ && _); lia.
Qed.

Lemma page_loop_length st n pages :
  length (all_text (page_loop self ocr st n pages))
  = (length (all_text st) + length pages)%nat.
Proof.
  destruct (page_loop_all_text self ocr st n pages) as (more & -> & <-).
  by rewrite length_app.
Qed.

End ExtractMore.

(** X15. What [extract] returns describes the text file it has written:
    [page_count] is the number of pages of the document, [char_count] is the
    length of the text in the output file, and [ocr_pages] counts pages of
    the document.  OCR never loses text: the text written is at least as
    long as the text layer of the document with its page markers (14
    characters or more per page) and the blank lines between the pages.
    Nothing else is written. *)
Theorem extract_describes_output
    (self : Extractor.TextExtractor) (pdf_path output_path : string)
    (env : Extractor.extract_env) (w w' : World)
    (page_count char_count ocr_pages : nat) (method : string) :
  Extractor.extract self pdf_path output_path env w
  = (w', Ok (page_count, char_count, ocr_pages, method)) →
  ∃ pages text,
    Extractor.opened env = Ok pages
    ∧ page_count = length pages
    ∧ fs w' !! output_path = Some (Text text)
    ∧ char_count = length text
    ∧ (native_chars pages + 14 * page_count + 2 * (page_count - 1) ≤ char_count)%nat
    ∧ (ocr_pages ≤ page_count)%nat
    ∧ (∀ p, p ≠ output_path → fs w' !! p = fs w !! p)
    ∧ db w' = db w.
Proof.
  unfold Extractor.extract.
  destruct (Extractor.opened env) as [pages|e]; [|done].
  destruct (Extractor.output_error env); [done|].
  intros [= <- <- <- <- <-]. eexists pages, _.
  split; [done|]. split; [done|].
  split; [simpl; by rewrite lookup_insert_eq|]. split; [done|].
  split; [|split; [|split; [|done]]].
  - destruct pages as [|raw pages]; [simpl; lia|].
    pose proof (page_loop_total self (Extractor.ocr_stdout env) Extractor.loop_init 0
                  (raw :: pages)) as Ht.
    pose proof (page_loop_length self (Extractor.ocr_stdout env) Extractor.loop_init 0
                  (raw :: pages)) as Hl.
    rewrite join_length.
    + rewrite Hl. change (length [10%N; 10%N]) with 2%nat.
      change (total_length (Extractor.all_text Extractor.loop_init)) with 0%nat in Ht.
      change (length (Extractor.all_text Extractor.loop_init)) with 0%nat.
      lia.
    + intros Hnil. rewrite Hnil in Hl. simpl in Hl. lia.
  - pose proof (page_loop_ocr_pages_le self (Extractor.ocr_stdout env)
                  Extractor.loop_init 0 pages) as Ho.
    simpl in Ho. lia.
  - intros p Hp. simpl. by rewrite lookup_insert_ne.
Qed.

Lemma extract_describes_output_witness :
  let w' := (Extractor.extract extractor_with_ocr "data/doj/a.pdf" "out/a.txt"
               scanned_document world0).1 in
  ∃ pages text,
    Extractor.opened scanned_document = Ok pages
    ∧ 3%nat = length pages
    ∧ fs w' !! "out/a.txt" = Some (Text text)
    ∧ 85%nat = length text
    ∧ (native_chars pages + 14 * 3 + 2 * (3 - 1) ≤ 85)%nat
    ∧ (3 ≤ 3)%nat
    ∧ (∀ p, p ≠ "out/a.txt" → fs w' !! p = fs world0 !! p)
    ∧ db w' = db world0.
Proof.
  intros w'.
  apply (extract_describes_output extractor_with_ocr "data/doj/a.pdf" "out/a.txt"
           scanned_document world0 w' 3 85 3 "pymupdf+ocr").
  vm_compute. reflexivity.
Defined.

Lemma page_loop_no_tools self ocr st n pages :
  Extractor.can_ocr self = false →
  Extractor.page_loop self ocr st n pages
  = {| Extractor.all_text :=
         Extractor.all_text st
         ++ imap (λ i raw, Extractor.page_block (n + i) (Extractor.strip raw)) pages;
       Extractor.ocr_pages := Extractor.ocr_pages st;
       Extractor.method := Extractor.method st;
       Extractor.ocr_calls := Extractor.ocr_calls st |}.
Proof.
  intros Hc. revert st n.
  induction pages as [|raw pages IH]; intros st n.
  - simpl. rewrite app_nil_r. by destruct st.
  - cbn [Extractor.page_loop imap]. rewrite IH.
    unfold Extractor.page_step. rewrite wants_ocr_without_tools by done.
    cbn [Extractor.all_text Extractor.ocr_pages Extractor.method Extractor.ocr_calls].
    rewrite <- app_assoc. cbn [app]. rewrite Nat.add_0_r.
    do 3 f_equal. apply imap_ext. intros i raw' _. simpl. f_equal. lia.
Qed.

(** X16. Without [tesseract] or without [pdftoppm], [extract] never runs
    OCR: whatever [min_chars_per_page] is and however little text the
    pages have, it writes the text layer of the document, page by page,
    and returns method ["pymupdf"] with no OCR page. *)
Theorem extract_without_tools_is_native
    (self : Extractor.TextExtractor) (pdf_path output_path : string)
    (env : Extractor.extract_env) (w : World) (pages : list str) :
  Extractor.can_ocr self = false →
  Extractor.opened env = Ok pages →
  Extractor.output_error env = None →
  let text := Extractor.join [10%N; 10%N]
                (imap (λ i raw, Extractor.page_block i (Extractor.strip raw)) pages) in
  Extractor.extract self pdf_path output_path env w
  = (set_fs (<[output_path := Text text]> (fs w)) w,
     Ok (length pages, length text, 0%nat, "pymupdf"))
  ∧ Extractor.ocr_calls
      (Extractor.page_loop self (Extractor.ocr_stdout env) Extractor.loop_init 0 pages)
    = [].
Proof.
  intros Hc Ho He text. unfold Extractor.extract.
  rewrite Ho, He, page_loop_no_tools by done. done.
Qed.

Lemma extract_without_tools_is_native_witness :
  (Extractor.extract extractor_without_ocr "data/doj/a.pdf" "out/a.txt"
     scanned_document world0).2
  = Ok (3%nat, 55%nat, 0%nat, "pymupdf").
Proof.
  destruct (extract_without_tools_is_native extractor_without_ocr "data/doj/a.pdf"
              "out/a.txt" scanned_document world0 three_pages eq_refl eq_refl eq_refl)
    as [H _].
  rewrite H. reflexivity.
Defined.

(** X17. An extraction that fails, because the document cannot be opened or
    the text file cannot be written, is recorded by [_extract_text] as one
    [failed] row for the document, with method ["error"], no output path,
    zero counts and the message of the exception.  No exception leaves the
    call, no file is written, and table [documents] is untouched: the
    document stays [downloaded]. *)
Theorem failed_extraction_recorded
    (self : BaseSource.BaseSource) (doc_id : Z) (pdf_path : string)
    (env : Extractor.extract_env) (w : World) (e : exn) :
  Extractor.opened env = Raise e
  ∨ (∃ pages msg, Extractor.opened env = Ok pages
                  ∧ Extractor.output_error env = Some msg ∧ e = OSError msg) →
  let w' := BaseSource._extract_text self doc_id pdf_path env w in
  fs w' = fs w
  ∧ Db.documents (db w') = Db.documents (db w)
  ∧ ∃ row,
      Db.text_extractions (db w') = Db.text_extractions (db w) ++ [row]
      ∧ Extraction.document_id row = doc_id
      ∧ Extraction.status row = "failed"
      ∧ Extraction.method row = "error"
      ∧ Extraction.output_path row = ""
      ∧ Extraction.page_count row = 0
      ∧ Extraction.char_count row = 0
      ∧ Extraction.ocr_pages row = 0
      ∧ Extraction.error row = Some (str_of_exn e).
Proof.
  intros He w'. subst w'. unfold BaseSource._extract_text, Extractor.extract.
  destruct He as [->|(pages & msg & -> & -> & ->)]; simpl.
  - split; [done|]. split; [done|]. eexists. split; [done|]. done.
  - split; [done|]. split; [done|]. eexists. split; [done|]. done.
Qed.

Lemma failed_extraction_recorded_witness :
  let w' := BaseSource._extract_text doj 1 "data/doj/a.pdf" broken_pdf world0 in
  fs w' = fs world0
  ∧ Db.documents (db w') = Db.documents (db world0)
  ∧ ∃ row,
      Db.text_extractions (db w') = Db.text_extractions (db world0) ++ [row]
      ∧ Extraction.document_id row = 1
      ∧ Extraction.status row = "failed"
      ∧ Extraction.method row = "error"
      ∧ Extraction.output_path row = ""
      ∧ Extraction.page_count row = 0
      ∧ Extraction.char_count row = 0
      ∧ Extraction.ocr_pages row = 0
      ∧ Extraction.error row = Some "cannot open broken document".
Proof.
  apply (failed_extraction_recorded doj 1 "data/doj/a.pdf" broken_pdf world0
           (OtherError "cannot open broken document")).
  left. reflexivity.
Defined.

(** ** Extraction of what is already downloaded *)

Section StringFacts.

Lemma string_app_assoc (a b c : string) : a +:+ (b +:+ c) = (a +:+ b) +:+ c.
Proof.
  induction a as [|x a IH]; [done|].
  change (String x (a +:+ (b +:+ c)) = String x ((a +:+ b) +:+ c)). by rewrite IH.
Qed.

Lemma rev_app_app (a b acc : string) :
  String.rev_app (a +:+ b) acc = String.rev_app b (String.rev_app a acc).
Proof.
  revert acc. induction a as [|x a IH]; intros acc; [done|].
  change (String.rev_app (a +:+ b) (String x acc)
          = String.rev_app b (String.rev_app a (String x acc))).
  apply IH.
Qed.

Lemma lower_app (a b : string) : Py.lower (a +:+ b) = Py.lower a +:+ Py.lower b.
Proof.
  induction a as [|x a IH]; [done|].
  change (String (Py.lower_ascii x) (Py.lower (a +:+ b))
          = String (Py.lower_ascii x) (Py.lower a +:+ Py.lower b)).
  by rewrite IH.
Qed.

(** A path that ends in [.txt] does not end in [.pdf], in any case. *)
Lemma txt_not_pdf (x : string) :
  Py.endswith ".pdf" (Py.lower (x +:+ ".txt")) = false.
Proof.
  unfold Py.endswith, String.rev. rewrite lower_app, rev_app_app.
  reflexivity.
Qed.

Lemma os_path_join_suffix (a b : string) : ∃ x, Py.os_path_join a b = x +:+ b.
Proof.
  unfold Py.os_path_join. destruct (Py.startswith "/" b).
  - by exists "".
  - destruct (_ || _).
    + by exists a.
    + exists (a +:+ "/"). by rewrite string_app_assoc.
Qed.

Lemma output_path_not_pdf (dir base : string) :
  Py.endswith ".pdf" (Py.lower (Py.os_path_join dir (base +:+ ".txt"))) = false.
Proof.
  destruct (os_path_join_suffix dir (base +:+ ".txt")) as [x ->].
  rewrite string_app_assoc. apply txt_not_pdf.
Qed.

End StringFacts.

Section ExtractOnlyFacts.

Variables (cfg : Config.AppConfig) (ex : Extractor.TextExtractor).
Implicit Types (w : World) (doc : Document.row).

Lemma eligible_ext (f1 f2 : gmap string file) doc :
  (∀ p, Py.endswith ".pdf" (Py.lower p) = true → f1 !! p = f2 !! p) →
  eligible f1 doc = eligible f2 doc.
Proof.
  intros Hf. unfold eligible.
  destruct (Py.endswith ".pdf" _) eqn:Hp; [|by rewrite !andb_false_r].
  by rewrite (Hf _ Hp).
Qed.

(** One iteration of the loop of [run_extract_only]. *)
Lemma extract_doc_spec doc env w :
  let w' := Main.extract_doc cfg ex doc env w in
  Db.documents (db w') = Db.documents (db w)
  ∧ Db.documents_seq (db w') = Db.documents_seq (db w)
  ∧ trace w' = trace w ∧ clock w' = clock w
  ∧ last_request_time w' = last_request_time w
  ∧ (∀ p, Py.endswith ".pdf" (Py.lower p) = true → fs w' !! p = fs w !! p)
  ∧ if eligible (fs w) doc
    then ∃ row,
           Db.text_extractions (db w') = Db.text_extractions (db w) ++ [row]
           ∧ Extraction.document_id row = Document.id doc
           ∧ (Extraction.status row = "completed" ∨ Extraction.status row = "failed")
           ∧ (succeeds env → Extraction.status row = "completed")
    else w' = w.
Proof.
  unfold Main.extract_doc, eligible.
  destruct (Py.truthy (Document.local_path doc)); [|done].
  destruct (Py.endswith ".pdf" _); [|done]. cbn [negb orb andb].
  destruct (fs w !! default "" (Document.local_path doc)) as [f|] eqn:Hf.
  2:{ rewrite bool_decide_eq_false_2; [done|]. by intros [? ?]. }
  rewrite bool_decide_eq_true_2 by done.
  match goal with |- context [Extractor.extract _ _ ?o _ _] => set (out := o) end.
  assert (Py.endswith ".pdf" (Py.lower out) = false) as Hout
    by apply output_path_not_pdf.
  clearbody out. unfold Extractor.extract.
  destruct (Extractor.opened env) as [pages|e] eqn:Ho.
  - destruct (Extractor.output_error env) as [msg|] eqn:He; cbn.
    + repeat (split; [done|]). eexists. split; [done|]. split; [done|].
      split; [by right|]. intros [_ ?]. congruence.
    + repeat (split; [done|]). split.
      * intros p Hp. apply lookup_insert_ne. intros <-. apply not_true_iff_false in Hout. apply Hout. exact Hp.
      * eexists. split; [done|]. split; [done|]. split; [by left|done].
  - cbn. repeat (split; [done|]). eexists. split; [done|]. split; [done|].
    split; [by right|]. intros [[pages ?] _]. congruence.
Qed.

Lemma extract_docs_skip docs env i w :
  (∀ doc, doc ∈ docs → eligible (fs w) doc = false) →
  Main.extract_docs cfg ex docs env i w = w.
Proof.
  revert i. induction docs as [|doc docs IH]; intros i Hn; [done|].
  cbn [Main.extract_docs].
  pose proof (extract_doc_spec doc (env i) w) as (_ & _ & _ & _ & _ & _ & Hd).
  rewrite Hn in Hd by (apply elem_of_cons; by left). rewrite Hd.
  apply IH. intros d Hin. apply Hn. apply elem_of_cons. by right.
Qed.

Lemma extract_docs_spec docs env i w :
  let w' := Main.extract_docs cfg ex docs env i w in
  Db.documents (db w') = Db.documents (db w)
  ∧ Db.documents_seq (db w') = Db.documents_seq (db w)
  ∧ trace w' = trace w ∧ clock w' = clock w
  ∧ last_request_time w' = last_request_time w
  ∧ (∀ p, Py.endswith ".pdf" (Py.lower p) = true → fs w' !! p = fs w !! p)
  ∧ ∃ new,
      Db.text_extractions (db w') = Db.text_extractions (db w) ++ new
      ∧ Extraction.document_id <$> new
        = Document.id <$> List.filter (eligible (fs w)) docs
      ∧ Forall (λ row, Extraction.status row = "completed"
                       ∨ Extraction.status row = "failed") new
      ∧ ((∀ k, succeeds (env k)) →
         Forall (λ row, Extraction.status row = "completed") new).
Proof.
  revert i w. induction docs as [|doc docs IH]; intros i w.
  - simpl. repeat (split; [done|]). exists []. rewrite app_nil_r.
    repeat split; done.
  - cbn [Main.extract_docs].
    pose proof (extract_doc_spec doc (env i) w) as (H1 & H2 & H3 & H4 & H5 & H6 & Hd).
    remember (Main.extract_doc cfg ex doc (env i) w) as w1 eqn:Hw1. clear Hw1.
    destruct (IH (S i) w1) as (I1 & I2 & I3 & I4 & I5 & I6 & new & In1 & In2 & In3 & In4).
    split; [congruence|]. split; [congruence|]. split; [congruence|].
    split; [congruence|]. split; [congruence|]. split.
    { intros p Hp. rewrite I6, H6; done. }
    assert (List.filter (eligible (fs w1)) docs = List.filter (eligible (fs w)) docs)
      as Hfil.
    { apply filter_ext. intros d. by apply eligible_ext. }
    rewrite Hfil in In2. cbn [List.filter].
    destruct (eligible (fs w) doc).
    + destruct Hd as (row & Hr1 & Hr2 & Hr3 & Hr4).
      exists (row :: new). split; [rewrite In1, Hr1; by rewrite <- app_assoc|].
      split; [rewrite !fmap_cons; congruence|].
      split; [by constructor|].
      intros Hs. constructor; [by apply Hr4|by apply In4].
    + subst w1. exists new. done.
Qed.

End ExtractOnlyFacts.

(** X18. The extraction pass of [main.py] reads the catalog and the
    downloaded files and only adds to table [text_extractions]: table
    [documents] is as it was, no request is sent and no time is spent
    waiting, and no file whose name ends in [.pdf] is written, removed or
    changed. *)
Theorem extract_only_touches_no_document
    (cfg : Config.AppConfig) (ex : Extractor.TextExtractor)
    (source : option string) (env : nat → Extractor.extract_env) (w : World) :
  let w' := Main.run_extract_only cfg ex source env w in
  Db.documents (db w') = Db.documents (db w)
  ∧ trace w' = trace w ∧ clock w' = clock w
  ∧ last_request_time w' = last_request_time w
  ∧ (∀ p, Py.endswith ".pdf" (Py.lower p) = true → fs w' !! p = fs w !! p)
  ∧ ∃ new, Db.text_extractions (db w') = Db.text_extractions (db w) ++ new.
Proof.
  intros w'. subst w'. unfold Main.run_extract_only.
  destruct (extract_docs_spec cfg ex (Queries.get_downloaded_docs (db w) source) env 0 w)
    as (H1 & _ & H3 & H4 & H5 & H6 & new & Hn & _).
  repeat (split; [done|]). by exists new.
Qed.

(** X19. The extraction pass adds one row to [text_extractions] for every
    document that [get_downloaded_docs] lists, whose path ends in [.pdf]
    and whose file exists, in the order of the list, and no other row; each
    of these rows is [completed] or [failed]. *)
Theorem extract_only_rows
    (cfg : Config.AppConfig) (ex : Extractor.TextExtractor)
    (source : option string) (env : nat → Extractor.extract_env) (w : World) :
  let w' := Main.run_extract_only cfg ex source env w in
  ∃ new,
    Db.text_extractions (db w') = Db.text_extractions (db w) ++ new
    ∧ Extraction.document_id <$> new
      = Document.id <$> List.filter (eligible (fs w))
                          (Queries.get_downloaded_docs (db w) source)
    ∧ Forall (λ row, Extraction.status row = "completed"
                     ∨ Extraction.status row = "failed") new.
Proof.
  intros w'. subst w'. unfold Main.run_extract_only.
  destruct (extract_docs_spec cfg ex (Queries.get_downloaded_docs (db w) source) env 0 w)
    as (_ & _ & _ & _ & _ & _ & new & Hn & Hids & Hst & _).
  by exists new.
Qed.

(** X20. After an extraction pass in which every extraction succeeded, a
    second pass finds nothing to do: whatever the extractor would now meet,
    it leaves everything as the first pass left it. *)
Theorem extract_only_twice
    (cfg : Config.AppConfig) (ex : Extractor.TextExtractor)
    (source : option string) (env env' : nat → Extractor.extract_env) (w : World) :
  (∀ k, succeeds (env k)) →
  let w1 := Main.run_extract_only cfg ex source env w in
  Main.run_extract_only cfg ex source env' w1 = w1.
Proof.
  intros Hs w1. unfold Main.run_extract_only at 1.
  apply extract_docs_skip. intros doc Hdoc.
  destruct (extract_docs_spec cfg ex (Queries.get_downloaded_docs (db w) source) env 0 w)
    as (Hd & _ & _ & _ & _ & Hfs & new & Hn & Hids & _ & Hc).
  fold (Main.run_extract_only cfg ex source env w) in Hd, Hfs, Hn. fold w1 in Hd, Hfs, Hn.
  specialize (Hc Hs).
  unfold Queries.get_downloaded_docs in Hdoc.
  apply list_elem_of_In, filter_In in Hdoc as [Hin Hp].
  rewrite Hd in Hin. rewrite Hn, existsb_app, negb_orb in Hp.
  apply andb_true_iff in Hp as [Hp1 [Hold Hnew]%andb_true_iff].
  destruct (eligible (fs w1) doc) eqn:He; [|done]. exfalso.
  rewrite (eligible_ext (fs w1) (fs w) doc Hfs) in He.
  assert (Document.id doc ∈ Extraction.document_id <$> new) as Hid.
  { rewrite Hids. apply list_elem_of_fmap. exists doc. split; [done|].
    apply list_elem_of_In, filter_In. split; [|done].
    unfold Queries.get_downloaded_docs. apply filter_In. split; [done|].
    by rewrite Hp1, Hold. }
  apply list_elem_of_fmap in Hid as (row & Hrow & Hin').
  rewrite Forall_forall in Hc. specialize (Hc row Hin').
  apply negb_true_iff in Hnew.
  assert (existsb (Queries.completed_for (Document.id doc)) new = true) as Hex.
  { apply existsb_exists. exists row. split; [by apply list_elem_of_In|].
    unfold Queries.completed_for. by rewrite !bool_decide_eq_true_2. }
  congruence.
Qed.

Lemma extract_only_twice_witness :
  let w1 := Main.run_extract_only Config.default_app extractor_without_ocr None
              (λ _, blank_page_pdf) downloaded_world in
  Main.run_extract_only Config.default_app extractor_without_ocr None
    (λ _, broken_pdf) w1 = w1.
Proof.
  apply (extract_only_twice Config.default_app extractor_without_ocr None
           (λ _, blank_page_pdf) (λ _, broken_pdf) downloaded_world).
  intros k. split; [by exists [[]]|done].
Defined.

(** ** File names *)

Section NameFacts.

Lemma after_last_none c s : Py.after_last c s = None → mentions c s = false.
Proof.
  induction s as [|a r IH]; [done|]. simpl.
  destruct (Py.after_last c r); [done|].
  case_bool_decide; [done|]. intros _. by rewrite IH.
Qed.

Lemma after_last_some c s t : Py.after_last c s = Some t → mentions c t = false.
Proof.
  induction s as [|a r IH]; [done|]. simpl.
  destruct (Py.after_last c r) as [t'|] eqn:Hr.
  - intros [= <-]. by apply IH.
  - case_bool_decide; [|done]. intros [= <-]. by apply after_last_none.
Qed.

Lemma basename_no_slash p : mentions "/" (Py.os_path_basename p) = false.
Proof.
  unfold Py.os_path_basename.
  destruct (Py.after_last "/" p) as [t|] eqn:Ht; simpl.
  - by apply after_last_some in Ht.
  - by apply after_last_none.
Qed.

Lemma no_slash_not_absolute s : mentions "/" s = false → Py.startswith "/" s = false.
Proof.
  destruct s as [|a r]; [done|]. simpl.
  intros [H _]%orb_false_iff. rewrite andb_true_r.
  apply bool_decide_eq_false in H. apply bool_decide_eq_false_2. congruence.
Qed.

End NameFacts.

(** X21. The file name [_filename_from_url] derives from a url is never
    empty and contains no [/]: joined to the directory of the source it
    names a file directly inside that directory, whatever the url. *)
Theorem filename_from_url_is_a_name
    (urlparse_path : string → string) (url dest_dir : string) :
  let name := BaseSource._filename_from_url urlparse_path url in
  name ≠ ""
  ∧ mentions "/" name = false
  ∧ ∃ sep, (sep = "" ∨ sep = "/") ∧ Py.os_path_join dest_dir name = dest_dir +:+ sep +:+ name.
Proof.
  intros name.
  assert (name ≠ "" ∧ mentions "/" name = false) as [Hne Hns].
  { subst name. unfold BaseSource._filename_from_url, Py.truthy.
    case_bool_decide as He; simpl.
    - done.
    - split; [done|]. apply basename_no_slash. }
  split; [done|]. split; [done|].
  unfold Py.os_path_join. rewrite (no_slash_not_absolute name Hns).
  destruct (_ || _).
  - exists "". split; [by left|done].
  - exists "/". split; [by right|done].
Qed.

(** ** A duplicate under the name of the original *)

(** X22. The content check of [run] removes the file just downloaded, at
    its own path.  When a new url is stored under the path of a document
    that is already [downloaded] with the same content (two urls with one
    file name, from one source), that path is the path of the original:
    after the iteration the new row is [skipped] as a duplicate of the
    path, the row of the original still says [downloaded] at the path, and
    no file is there. *)
Theorem duplicate_under_same_name_removes_file
    (sha : list Byte.byte → string) (urlparse : string → string)
    (self : BaseSource.BaseSource) (c : BaseSource.counters) (url : string)
    (m : BaseSource.meta) (env : BaseSource.item_env) (w w2 : World)
    (p h : string) (z : Z) (r0 : Document.row) :
  catalog_ok (db w) →
  Db.url_exists (db w) url = false →
  item_download sha urlparse self url m env w = (w2, Ok (p, h, z)) →
  r0 ∈ Db.documents (db w) →
  Document.download_status r0 = "downloaded" →
  Document.sha256 r0 = Some h →
  Document.local_path r0 = Some p →
  let w' := (BaseSource.run_item sha urlparse self c url m env w).1.1 in
  fs w' !! p = None
  ∧ r0 ∈ Db.documents (db w')
  ∧ ∃ row, last (Db.documents (db w')) = Some row
           ∧ Document.url row = url
           ∧ Document.download_status row = "skipped"
           ∧ Document.error row = Some ("duplicate of " +:+ p).
Proof.
  intros Hok Hu Hdl Hr0 Hst Hsha Hlp.
  pose proof Hok as (Hids & Hloc & Hdup).
  destruct (item_download_db sha urlparse self url m env w Hids Hu)
    as (row0 & Hdocs & Hseq & Hid & Hurl & Hpend & Hsha0).
  destruct (item_download_ok sha urlparse self url m env w w2 p h z Hdl)
    as [Hp [f Hf]].
  rewrite Hdl in Hdocs, Hseq. cbn [fst] in Hdocs, Hseq.
  assert (Hok2 : catalog_ok (db w2)).
  { apply (catalog_ok_snoc (db w) (db w2) row0); try done.
    intros h' Hst'. rewrite Hpend in Hst'. done. }
  assert (Hex : Db.sha256_exists (db w2) h = Some p).
  { destruct Hok2 as (_ & _ & Hdup2). rewrite <- Hlp.
    apply sha256_exists_found; [done| |done..].
    rewrite Hdocs. apply elem_of_app. by left. }
  assert (Htruthy : Py.truthy (Some p) = true).
  { rewrite <- Hlp. by apply (Hloc r0 h). }
  rewrite run_item_new by done. cbv zeta. rewrite Hdl, Hex, Htruthy, Hf.
  cbn [fst db fs set_db set_fs].
  rewrite (update_download_last (db w) (db w2) row0) by done.
  split; [apply lookup_delete_eq|]. split; [apply elem_of_app; by left|].
  eexists. split; [apply last_snoc|]. simpl. done.
Qed.

Lemma duplicate_under_same_name_removes_file_witness :
  let w' := (BaseSource.run_item length_digest Py.os_path_basename doj
               {| BaseSource.discovered := 1; BaseSource.downloaded := 1;
                  BaseSource.skipped := 0; BaseSource.failed := 0 |}
               "https://mirror.org/a.pdf" no_meta
               (serving [Downloader.Chunk pdf_bytes]) after_first_download).1.1 in
  is_Some (fs after_first_download !! "data/doj/a.pdf")
  ∧ fs w' !! "data/doj/a.pdf" = None
  ∧ ∃ r0, r0 ∈ Db.documents (db w')
          ∧ Document.download_status r0 = "downloaded"
          ∧ Document.local_path r0 = Some "data/doj/a.pdf".
Proof.
  intros w'.
  assert (Hok : catalog_ok (db after_first_download)).
  { apply (run_loop_catalog_ok length_digest Py.os_path_basename doj
             [("https://x.org/a.pdf", no_meta)]
             (λ _, serving [Downloader.Chunk pdf_bytes]) 0
             {| BaseSource.discovered := 0; BaseSource.downloaded := 0;
                BaseSource.skipped := 0; BaseSource.failed := 0 |} world0).
    apply catalog_ok_empty. }
  destruct (Db.documents (db after_first_download) !! 0%nat) as [r0|] eqn:Hr0;
    [|discriminate Hr0].
  assert (Hst : Document.download_status r0 = "downloaded").
  { vm_compute in Hr0. injection Hr0 as <-. reflexivity. }
  assert (Hlp : Document.local_path r0 = Some "data/doj/a.pdf").
  { vm_compute in Hr0. injection Hr0 as <-. reflexivity. }
  destruct (duplicate_under_same_name_removes_file length_digest Py.os_path_basename doj
              {| BaseSource.discovered := 1; BaseSource.downloaded := 1;
                 BaseSource.skipped := 0; BaseSource.failed := 0 |}
              "https://mirror.org/a.pdf" no_meta (serving [Downloader.Chunk pdf_bytes])
              after_first_download
              (item_download length_digest Py.os_path_basename doj
                 "https://mirror.org/a.pdf" no_meta (serving [Downloader.Chunk pdf_bytes])
                 after_first_download).1
              "data/doj/a.pdf" "4" 4 r0 Hok)
    as (Hfs & Hin & _).
  - reflexivity.
  - vm_compute. reflexivity.
  - apply (list_elem_of_lookup_2 _ 0%nat). exact Hr0.
  - exact Hst.
  - vm_compute in Hr0. injection Hr0 as <-. reflexivity.
  - exact Hlp.
  - split; [by eexists|]. split; [exact Hfs|].
    exists r0. split; [exact Hin|]. split; [exact Hst|exact Hlp].
Defined.
